(** * Order placement and inventory reservation (controllers/orderController.js)

    A shallow embedding of [createOrder] and [updateOrder].  The two
    handlers are written once, as programs over the store operations they
    await ([Product.findById], [newOrder.save], [Product.findByIdAndUpdate],
    [Order.findById], [Order.findByIdAndUpdate]).  Two readings of such a
    program are given: [run], which executes one request alone from start to
    end and records the store accesses it made, and [runSchedule], which lets
    several requests take turns at their awaits, as the event loop does. *)

From stdpp Require Import gmap strings list fin_maps sorting.
From Stdlib Require Import ZArith Lia.

Open Scope Z_scope.

(** ** Data model *)

(** A product document.  Only [quantity] matters to the controller; the other
    descriptive fields of the schema are kept as one opaque field. *)
Module Product.
Record t := mk { details : string; quantity : Z }.
End Product.

(** One entry of [req.body.products]: [{ productId, quantity }].  A
    [productId] is a well-formed document key. *)
Module LineItem.
Record t := mk { productId : string; quantity : Z }.
End LineItem.

(** An order document: the schema paths the controller relies on. *)
Module Order.
Record t := mk { deliveryAddress : gmap string string; products : list LineItem.t }.
End Order.

(** [req.body].  A field that is [undefined] (or, for [products], not an
    array) is [None]; an address object is truthy whatever its keys. *)
Module Body.
Record t := mk { deliveryAddress : option (gmap string string);
                 products : option (list LineItem.t) }.
End Body.

(** The two collections.  Order documents get their [_id] from a counter. *)
Module Db.
Record t := mk { Product : gmap string Product.t;
                 Order : gmap nat Order.t;
                 nextId : nat }.
End Db.

(** The JSON payload handed to [res.status(..).json(..)]. *)
Record Response := mkResponse {
  status : nat;
  success : bool;
  message : string;
  errors : option (list string);
  data : option (nat * Order.t);
  error : option string
}.

(** ** Programs over the store

    Every constructor but [Ret] and [Throw] is one awaited store call, with
    the rest of the handler as its continuation. *)
Inductive Prog (A : Type) : Type :=
| Ret (a : A)
| Throw (e : string)
| ProductFindById (productId : string) (k : option Product.t -> Prog A)
| ProductFindByIdAndUpdate (productId : string) (inc : Z) (k : Prog A)
| OrderSave (doc : Order.t) (k : string + (nat * Order.t) -> Prog A)
| OrderFindById (id : nat) (k : option Order.t -> Prog A)
| OrderFindByIdAndUpdate (id : nat) (update : Body.t) (k : option Order.t -> Prog A).

Arguments Ret {A} a.
Arguments Throw {A} e.
Arguments ProductFindById {A} productId k.
Arguments ProductFindByIdAndUpdate {A} productId inc k.
Arguments OrderSave {A} doc k.
Arguments OrderFindById {A} id k.
Arguments OrderFindByIdAndUpdate {A} id update k.

Fixpoint bind {A B : Type} (p : Prog A) (f : A -> Prog B) : Prog B :=
  match p with
  | Ret a => f a
  | Throw e => Throw e
  | ProductFindById i k => ProductFindById i (fun r => bind (k r) f)
  | ProductFindByIdAndUpdate i d k => ProductFindByIdAndUpdate i d (bind k f)
  | OrderSave doc k => OrderSave doc (fun r => bind (k r) f)
  | OrderFindById i k => OrderFindById i (fun r => bind (k r) f)
  | OrderFindByIdAndUpdate i u k => OrderFindByIdAndUpdate i u (fun r => bind (k r) f)
  end.

(** [try { p } catch (error) { h error }] *)
Fixpoint catch {A : Type} (p : Prog A) (h : string -> Prog A) : Prog A :=
  match p with
  | Ret a => Ret a
  | Throw e => h e
  | ProductFindById i k => ProductFindById i (fun r => catch (k r) h)
  | ProductFindByIdAndUpdate i d k => ProductFindByIdAndUpdate i d (catch k h)
  | OrderSave doc k => OrderSave doc (fun r => catch (k r) h)
  | OrderFindById i k => OrderFindById i (fun r => catch (k r) h)
  | OrderFindByIdAndUpdate i u k => OrderFindByIdAndUpdate i u (fun r => catch (k r) h)
  end.

#[global] Instance Prog_ret : MRet Prog := @Ret.
#[global] Instance Prog_bind : MBind Prog := fun A B f p => bind p f.

(** [await newOrder.save()]: the saved document, or the error it throws. *)
Definition save (doc : Order.t) : Prog (nat * Order.t) :=
  OrderSave doc (fun r => match r with inl e => Throw e | inr saved => Ret saved end).

(** ** createOrder *)

Definition notEnough : string := "Not enough quantity available for a product".

(** The test of line 22: [!existingProduct || existingProduct.quantity < quantity]. *)
Definition insufficient (existingProduct : option Product.t) (quantity : Z) : bool :=
  match existingProduct with
  | None => true
  | Some p => Product.quantity p <? quantity
  end.

(** Lines 19-27.  The callbacks share the array [errorMessages]; each pushes
    at most one message.  The calls are taken in the order in which [map]
    issues them. *)
Fixpoint productChecks (products : list LineItem.t) (errorMessages : list string)
  : Prog (list string) :=
  match products with
  | [] => Ret errorMessages
  | product :: rest =>
      ProductFindById (LineItem.productId product) (fun existingProduct =>
        productChecks rest
          (if insufficient existingProduct (LineItem.quantity product)
           then errorMessages ++ [notEnough] else errorMessages))
  end.

(** Lines 41-48: one [$inc: { quantity: -quantity }] per line item. *)
Fixpoint productUpdates (products : list LineItem.t) : Prog unit :=
  match products with
  | [] => Ret tt
  | product :: rest =>
      ProductFindByIdAndUpdate (LineItem.productId product)
        (- LineItem.quantity product) (productUpdates rest)
  end.

Definition invalidInput : Response :=
  {| status := 400; success := false;
     message := "Please provide valid delivery address and at least one product";
     errors := None; data := None; error := None |}.

Definition insufficientQuantity (errorMessages : list string) : Response :=
  {| status := 400; success := false;
     message := "One or more products have insufficient quantity";
     errors := Some errorMessages; data := None; error := None |}.

Definition created (savedOrder : nat * Order.t) : Response :=
  {| status := 201; success := true;
     message := "Order created successfully";
     errors := None; data := Some savedOrder; error := None |}.

Definition failed (msg e : string) : Response :=
  {| status := 500; success := false; message := msg;
     errors := None; data := None; error := Some e |}.

Definition createOrder (body : Body.t) : Prog Response :=
  catch
    (match Body.deliveryAddress body, Body.products body with
     | Some deliveryAddress, Some ((_ :: _) as products) =>
         errorMessages ← productChecks products [];
         if (0 <? length errorMessages)%nat
         then mret (insufficientQuantity errorMessages)
         else
           savedOrder ← save (Order.mk deliveryAddress products);
           _ ← productUpdates products;
           mret (created savedOrder)
     | _, _ => mret invalidInput
     end)
    (fun e => mret (failed "Failed to create a new order" e)).

(** ** updateOrder *)

Definition invalidId : Response :=
  {| status := 400; success := false; message := "Invalid order ID format";
     errors := None; data := None; error := None |}.

Definition notFound : Response :=
  {| status := 404; success := false; message := "Order not found";
     errors := None; data := None; error := None |}.

Definition updated (id : nat) (updatedOrder : option Order.t) : Response :=
  {| status := 200; success := true; message := "Order updated successfully";
     errors := None; data := pair id <$> updatedOrder; error := None |}.

(** Lines 146-152: [{ ...existingOrder.deliveryAddress, ...deliveryAddress }]
    written back into [req.body]; the keys of the request win. *)
Definition mergeAddress (existingOrder : Order.t) (body : Body.t) : Body.t :=
  match Body.deliveryAddress body with
  | Some deliveryAddress =>
      Body.mk (Some (deliveryAddress ∪ Order.deliveryAddress existingOrder))
              (Body.products body)
  | None => body
  end.

(** [req.params.id] is [None] when [mongoose.Types.ObjectId.isValid] refuses
    it, and [Some id] when it is the key [id]. *)
Definition updateOrder (id : option nat) (body : Body.t) : Prog Response :=
  catch
    (match id with
     | None => mret invalidId
     | Some id =>
         existingOrder ← OrderFindById id Ret;
         match existingOrder with
         | None => mret notFound
         | Some existingOrder =>
             updatedOrder ← OrderFindByIdAndUpdate id (mergeAddress existingOrder body) Ret;
             mret (updated id updatedOrder)
         end
     end)
    (fun e => mret (failed "Failed to update the order" e)).

(** ** The store's reading of a program *)

(** A store access, as the store sees it. *)
Inductive Event :=
| ReadProduct (productId : string)
| IncProduct (productId : string) (inc : Z)
| InsertOrder (id : nat) (doc : Order.t)
| ReadOrder (id : nat)
| UpdateOrder (id : nat) (update : Body.t).

(** [$inc: { quantity: inc }] on one product document. *)
Definition incQuantity (inc : Z) (p : Product.t) : Product.t :=
  Product.mk (Product.details p) (Product.quantity p + inc).

(** [Product.findByIdAndUpdate(productId, { $inc: { quantity: inc } })]: no
    document is created when the key matches none. *)
Definition applyInc (productId : string) (inc : Z) (db : Db.t) : Db.t :=
  Db.mk (alter (incQuantity inc) productId (Db.Product db)) (Db.Order db) (Db.nextId db).

Definition insertOrder (doc : Order.t) (db : Db.t) : Db.t :=
  Db.mk (Db.Product db) (<[Db.nextId db := doc]> (Db.Order db)) (S (Db.nextId db)).

(** [Order.findByIdAndUpdate(id, update)]: every schema path present in
    [update] replaces the stored one. *)
Definition setFields (update : Body.t) (o : Order.t) : Order.t :=
  Order.mk (default (Order.deliveryAddress o) (Body.deliveryAddress update))
           (default (Order.products o) (Body.products update)).

Definition applyUpdate (id : nat) (update : Body.t) (db : Db.t) : Db.t :=
  Db.mk (Db.Product db) (alter (setFields update) id (Db.Order db)) (Db.nextId db).

Definition validationFailed : string := "Order validation failed".

Section Semantics.

(** The validators of the Order schema (models/orderModel.js): [save] throws
    when they refuse the document. *)
Variable validate : Order.t -> bool.

(** One awaited call: the store after it, the access it made, and the rest
    of the handler.  [None] when the handler has returned or thrown. *)
Definition step {A : Type} (p : Prog A) (db : Db.t) : option (Db.t * list Event * Prog A) :=
  match p with
  | Ret _ | Throw _ => None
  | ProductFindById i k => Some (db, [ReadProduct i], k (Db.Product db !! i))
  | ProductFindByIdAndUpdate i d k => Some (applyInc i d db, [IncProduct i d], k)
  | OrderSave doc k =>
      if validate doc
      then Some (insertOrder doc db, [InsertOrder (Db.nextId db) doc], k (inr (Db.nextId db, doc)))
      else Some (db, [], k (inl validationFailed))
  | OrderFindById i k => Some (db, [ReadOrder i], k (Db.Order db !! i))
  | OrderFindByIdAndUpdate i u k =>
      Some (applyUpdate i u db, [UpdateOrder i u], k (Db.Order (applyUpdate i u db) !! i))
  end.

(** A request served alone: the final store, the accesses in order, and the
    value returned ([inr]) or the error thrown ([inl]). *)
Fixpoint run {A : Type} (p : Prog A) (db : Db.t) : Db.t * list Event * (string + A) :=
  match p with
  | Ret a => (db, [], inr a)
  | Throw e => (db, [], inl e)
  | ProductFindById i k =>
      let '(db', tr, r) := run (k (Db.Product db !! i)) db in
      (db', ReadProduct i :: tr, r)
  | ProductFindByIdAndUpdate i d k =>
      let '(db', tr, r) := run k (applyInc i d db) in
      (db', IncProduct i d :: tr, r)
  | OrderSave doc k =>
      if validate doc
      then let '(db', tr, r) := run (k (inr (Db.nextId db, doc))) (insertOrder doc db) in
           (db', InsertOrder (Db.nextId db) doc :: tr, r)
      else run (k (inl validationFailed)) db
  | OrderFindById i k =>
      let '(db', tr, r) := run (k (Db.Order db !! i)) db in
      (db', ReadOrder i :: tr, r)
  | OrderFindByIdAndUpdate i u k =>
      let '(db', tr, r) := run (k (Db.Order (applyUpdate i u db) !! i)) (applyUpdate i u db) in
      (db', UpdateOrder i u :: tr, r)
  end.

(** Several requests in flight.  [runSchedule] lets the request at each
    index of the schedule make its next store call. *)
Definition turn {A : Type} (i : nat) (cfg : Db.t * list (Prog A)) : Db.t * list (Prog A) :=
  match cfg.2 !! i with
  | Some p =>
      match step p cfg.1 with
      | Some (db', _, p') => (db', <[i := p']> cfg.2)
      | None => cfg
      end
  | None => cfg
  end.

Definition runSchedule {A : Type} (schedule : list nat) (cfg : Db.t * list (Prog A))
  : Db.t * list (Prog A) :=
  foldl (fun c i => turn i c) cfg schedule.

End Semantics.

(** ** Reading results *)

Definition stock (db : Db.t) (productId : string) : option Z :=
  Product.quantity <$> (Db.Product db !! productId).

Definition finalDb {A : Type} (r : Db.t * list Event * (string + A)) : Db.t := r.1.1.
Definition trace {A : Type} (r : Db.t * list Event * (string + A)) : list Event := r.1.2.
Definition outcome {A : Type} (r : Db.t * list Event * (string + A)) : string + A := r.2.
(** What the handler sent, if it did not let an error escape. *)
Definition sent {A : Type} (r : Db.t * list Event * (string + A)) : option A :=
  match r.2 with inr a => Some a | inl _ => None end.

(** ** The steps of one placement, on the store *)

(** Line 22, on the store as it stands. *)
Definition short (db : Db.t) (product : LineItem.t) : bool :=
  insufficient (Db.Product db !! LineItem.productId product) (LineItem.quantity product).

Definition reads (products : list LineItem.t) : list Event :=
  (fun product => ReadProduct (LineItem.productId product)) <$> products.

Definition incs (products : list LineItem.t) : list Event :=
  (fun product => IncProduct (LineItem.productId product) (- LineItem.quantity product))
    <$> products.

Definition applyUpdates (products : list LineItem.t) (db : Db.t) : Db.t :=
  foldl (fun db product =>
           applyInc (LineItem.productId product) (- LineItem.quantity product) db)
        db products.

(** Lines 9-15. *)
Definition wellShaped (body : Body.t) : option (gmap string string * list LineItem.t) :=
  match Body.deliveryAddress body, Body.products body with
  | Some deliveryAddress, Some ((_ :: _) as products) => Some (deliveryAddress, products)
  | _, _ => None
  end.

(** A handler that is done, as a program. *)
Definition finished {A : Type} (r : string + A) : Prog A :=
  match r with inl e => Throw e | inr a => Ret a end.

(** The total quantity the lines of one placement ask of one product. *)
Definition requested (productId : string) (products : list LineItem.t) : Z :=
  foldr (fun product total =>
           if decide (LineItem.productId product = productId)
           then LineItem.quantity product + total else total)
        0 products.

(** No product holds a negative quantity. *)
Definition nonNegative (db : Db.t) : Prop :=
  forall productId q, stock db productId = Some q -> 0 <= q.

(** The decrement as the spec words it, for comparison with [applyInc]:
    "decrement quantity by requestedQuantity only if current quantity >=
    requestedQuantity; otherwise fail that item and change nothing for that
    item".  [None] is the failed item. *)
Definition conditionalDecrement (productId : string) (requestedQuantity : Z) (db : Db.t)
  : option Db.t :=
  match Db.Product db !! productId with
  | Some p =>
      if requestedQuantity <=? Product.quantity p
      then Some (Db.mk (<[productId :=
                           Product.mk (Product.details p)
                                      (Product.quantity p - requestedQuantity)]>
                          (Db.Product db))
                       (Db.Order db) (Db.nextId db))
      else None
  | None => None
  end.

(** ** Concrete stores and requests

    The stores and bodies of the spec's scenarios, and the two schemas the
    examples are run with. *)

(** A schema without validators. *)
Definition noValidators : Order.t -> bool := fun _ => true.

Definition address1 : gmap string string := {[ "city" := "Lahore" ]}.
Definition inventory (l : list (string * Z)) : Db.t :=
  Db.mk (list_to_map (prod_map id (Product.mk "") <$> l)) ∅ 0.
Definition order (l : list (string * Z)) : Body.t :=
  Body.mk (Some address1) (Some (uncurry LineItem.mk <$> l)).

(** A schema whose validators refuse a line with a quantity below one. *)
Definition positiveQuantities : Order.t -> bool :=
  fun doc => forallb (fun product => 0 <? LineItem.quantity product) (Order.products doc).

Definition twoThrees : Body.t := order [("A", 3); ("A", 3)].

Definition fiveAndOne : Db.t := inventory [("A", 5); ("B", 1)].
Definition twoAndTwo : Body.t := order [("A", 2); ("B", 2)].

Definition oneOrder : Db.t :=
  Db.mk (Db.Product (inventory [("A", 5)]))
        {[ 0%nat := Order.mk address1 [LineItem.mk "A" 3] ]} 1.

(** ** getAllOrders, getOrderById, deleteOrder

    The three handlers that read or remove orders.  Their store calls are
    [Order.find({}).sort({ createdAt: -1 }).populate("products.productId")],
    [Order.findById(id).populate("products.productId")], [Order.findById(id)]
    and [Order.findByIdAndRemove(id)]. *)

(** A line item after [populate("products.productId")]: the product document
    stands where its key stood, [None] (null) when the key matches none. *)
Module PopulatedItem.
Record t := mk { productId : option (string * Product.t); quantity : Z }.
End PopulatedItem.

Module PopulatedOrder.
Record t := mk { deliveryAddress : gmap string string; products : list PopulatedItem.t }.
End PopulatedOrder.

(** The payload of these handlers; [data] and [error] are left out of the
    JSON when [None]. *)
Module Reply.
Record t (D : Type) := mk {
  status : nat;
  success : bool;
  message : string;
  data : option D;
  error : option string
}.
Arguments mk {D} _ _ _ _ _.
Arguments status {D} _.
Arguments success {D} _.
Arguments message {D} _.
Arguments data {D} _.
Arguments error {D} _.
End Reply.

(** One awaited call of these handlers, indexed by what it resolves to. *)
Module Call.
Inductive t : Type -> Type :=
| Find : t (list (nat * PopulatedOrder.t))
| FindByIdPopulate (id : nat) : t (option PopulatedOrder.t)
| FindById (id : nat) : t (option Order.t)
| FindByIdAndRemove (id : nat) : t (option Order.t).
End Call.

(** A handler: it sends its payload, lets an error escape, or awaits a call
    and goes on with what the call resolved to ([inr]) or rejected with
    ([inl]). *)
Inductive Handler (A : Type) : Type :=
| Send (a : A)
| Raise (e : string)
| Await {X : Type} (call : Call.t X) (k : string + X -> Handler A).

Arguments Send {A} a.
Arguments Raise {A} e.
Arguments Await {A X} call k.

(** [const x = await call; k x]: a rejected call throws. *)
Definition await {A X : Type} (call : Call.t X) (k : X -> Handler A) : Handler A :=
  Await call (fun r => match r with inl e => Raise e | inr x => k x end).

(** [try { h } catch (error) { c error }] *)
Fixpoint catchH {A : Type} (h : Handler A) (c : string -> Handler A) : Handler A :=
  match h with
  | Send a => Send a
  | Raise e => c e
  | Await call k => Await call (fun r => catchH (k r) c)
  end.

Definition replyFailed {D : Type} (msg e : string) : Reply.t D :=
  Reply.mk 500 false msg None (Some e).

Definition replyInvalidId {D : Type} : Reply.t D :=
  Reply.mk 400 false "Invalid order ID format" None None.

Definition replyNotFound {D : Type} : Reply.t D :=
  Reply.mk 404 false "Order not found" None None.

(** Lines 66-83. *)
Definition getAllOrders : Handler (Reply.t (list (nat * PopulatedOrder.t))) :=
  catchH
    (await Call.Find (fun orders =>
       Send (Reply.mk 200 true "Orders retrieved successfully" (Some orders) None)))
    (fun e => Send (replyFailed "Failed to retrieve orders" e)).

(** Lines 85-121.  As in [updateOrder], [req.params.id] is [None] when
    [mongoose.Types.ObjectId.isValid] refuses it. *)
Definition getOrderById (id : option nat) : Handler (Reply.t (nat * PopulatedOrder.t)) :=
  catchH
    (match id with
     | None => Send replyInvalidId
     | Some id =>
         await (Call.FindByIdPopulate id) (fun order =>
           match order with
           | None => Send replyNotFound
           | Some order =>
               Send (Reply.mk 200 true "Order retrieved successfully" (Some (id, order)) None)
           end)
     end)
    (fun e => Send (replyFailed "Failed to retrieve the requested order" e)).

(** Lines 174-211.  The payload never carries [data]. *)
Definition deleteOrder (id : option nat) : Handler (Reply.t Empty_set) :=
  catchH
    (match id with
     | None => Send replyInvalidId
     | Some id =>
         await (Call.FindById id) (fun existingOrder =>
           match existingOrder with
           | None => Send replyNotFound
           | Some _ =>
               await (Call.FindByIdAndRemove id) (fun _ =>
                 Send (Reply.mk 200 true "Order deleted successfully" None None))
           end)
     end)
    (fun e => Send (replyFailed "Failed to delete the order" e)).

(** [populate("products.productId")] on one order, against the products as
    the store holds them when the order is read. *)
Definition populate (db : Db.t) (o : Order.t) : PopulatedOrder.t :=
  PopulatedOrder.mk (Order.deliveryAddress o)
    ((fun product =>
        PopulatedItem.mk
          (pair (LineItem.productId product)
             <$> Db.Product db !! LineItem.productId product)
          (LineItem.quantity product))
       <$> Order.products o).

Definition removeOrder (id : nat) (db : Db.t) : Db.t :=
  Db.mk (Db.Product db) (delete id (Db.Order db)) (Db.nextId db).

(** A call, as the store sees it. *)
Inductive Access :=
| AccessFind
| AccessFindByIdPopulate (id : nat)
| AccessFindById (id : nat)
| AccessFindByIdAndRemove (id : nat).

Definition access {X : Type} (call : Call.t X) : Access :=
  match call with
  | Call.Find => AccessFind
  | Call.FindByIdPopulate id => AccessFindByIdPopulate id
  | Call.FindById id => AccessFindById id
  | Call.FindByIdAndRemove id => AccessFindByIdAndRemove id
  end.

Section HandlerSemantics.

(** The [createdAt] path of the Order schema (models/orderModel.js), by the
    document's key and content. *)
Variable createdAt : nat -> Order.t -> Z.

(** The store calls that are rejected (store unreachable, query aborted),
    with the error they reject with. *)
Variable failure : forall X : Type, Call.t X -> Db.t -> option string.

(** [a] sorts before [b] under [{ createdAt: -1 }]. *)
Definition newerFirst (a b : nat * Order.t) : Prop :=
  createdAt b.1 b.2 <= createdAt a.1 a.2.

#[local] Instance newerFirst_dec (a b : nat * Order.t) : Decision (newerFirst a b).
Proof. unfold newerFirst. apply _. Defined.

(** [Order.find({}).sort({ createdAt: -1 })] *)
Definition findSorted (db : Db.t) : list (nat * Order.t) :=
  merge_sort newerFirst (map_to_list (Db.Order db)).

(** What a call that is not rejected does to the store and resolves to. *)
Definition exec {X : Type} (call : Call.t X) (db : Db.t) : Db.t * X :=
  match call in Call.t X return Db.t * X with
  | Call.Find => (db, (fun o => (o.1, populate db o.2)) <$> findSorted db)
  | Call.FindByIdPopulate id => (db, populate db <$> Db.Order db !! id)
  | Call.FindById id => (db, Db.Order db !! id)
  | Call.FindByIdAndRemove id => (removeOrder id db, Db.Order db !! id)
  end.

(** A handler served alone: the final store, the calls it made, and the
    payload sent ([inr]) or the error that escaped ([inl]). *)
Fixpoint runH {A : Type} (h : Handler A) (db : Db.t) : Db.t * list Access * (string + A) :=
  match h with
  | Send a => (db, [], inr a)
  | Raise e => (db, [], inl e)
  | Await call k =>
      match failure _ call db with
      | Some e =>
          let '(db', tr, r) := runH (k (inl e)) db in (db', access call :: tr, r)
      | None =>
          let '(db', tr, r) := runH (k (inr (exec call db).2)) (exec call db).1 in
          (db', access call :: tr, r)
      end
  end.

End HandlerSemantics.

(** Reading the result of [runH]. *)
Definition finalDbH {A : Type} (r : Db.t * list Access * (string + A)) : Db.t := r.1.1.
Definition sentH {A : Type} (r : Db.t * list Access * (string + A)) : option A :=
  match r.2 with inr a => Some a | inl _ => None end.

(** A store in which no call is rejected. *)
Definition reachable : forall X : Type, Call.t X -> Db.t -> option string :=
  fun _ _ _ => None.


(** The quantity of one product that the accepted placements among
    [payloads] ordered. *)
Definition ordered (productId : string) (payloads : list (option Response)) : Z :=
  foldr (fun payload total =>
           match payload ≫= data with
           | Some savedOrder => requested productId (Order.products savedOrder.2) + total
           | None => total
           end)
        0 payloads.


(** Every order document was given its key by the counter. *)
Definition keysBelowCounter (db : Db.t) : Prop :=
  forall id, is_Some (Db.Order db !! id) -> (id < Db.nextId db)%nat.

(** [createdAt] in the order of the keys, and a store whose removals are
    rejected. *)
Definition byKey : nat -> Order.t -> Z := fun id _ => Z.of_nat id.

Definition removalDown : forall X : Type, Call.t X -> Db.t -> option string :=
  fun _ call _ =>
    match call with
    | Call.FindByIdAndRemove _ => Some "store unreachable"
    | _ => None
    end.

(** ** createOrder with its calls in flight

    A second reading of [createOrder], closer to the event loop than [run]
    and [runSchedule].  The callbacks of one [products.map(async ...)] all
    issue their call before any is awaited, so the calls of one
    [Promise.all] are pending together and settle in any order; and a call
    can be rejected by the store.  [Promise.all] rejects on the first
    rejection, the [catch] block answers 500 at once, and the calls that are
    still pending settle later all the same.  A rejected call leaves the
    store as it is. *)

(** One call of one request settles: [rejected] is the error it rejects
    with, [None] when it resolves. *)
Module Turn.
Record t := mk { request : nat; call : nat; rejected : option string }.
End Turn.

(** Where a placement stands: awaiting the [Promise.all] of line 27, with
    the reads still pending and the messages pushed so far; awaiting
    [newOrder.save()]; awaiting the [Promise.all] of line 48, with the
    decrements still pending; answered, with the decrements that were still
    pending when it answered; or answered by the catch block while reads
    were still pending, with those reads.  A call that was issued settles
    whether or not the handler still waits for it: [Promise.all] rejects at
    the first rejection and leaves the other calls running. *)
Inductive Flight :=
| Checking (deliveryAddress : gmap string string) (products pending : list LineItem.t)
           (errorMessages : list string)
| Saving (deliveryAddress : gmap string string) (products : list LineItem.t)
| Updating (savedOrder : nat * Order.t) (pending : list LineItem.t)
| Answered (payload : Response) (pending : list LineItem.t)
| AnsweredChecking (payload : Response) (pending : list LineItem.t).

(** Lines 27-39, once a read has resolved: [Promise.all] resolves when no
    read is pending; then line 29 answers, or line 39 issues the save. *)
Definition checksSettled (deliveryAddress : gmap string string)
    (products pending : list LineItem.t) (errorMessages : list string) : Flight :=
  match pending with
  | [] =>
      if (0 <? length errorMessages)%nat
      then Answered (insufficientQuantity errorMessages) []
      else Saving deliveryAddress products
  | _ :: _ => Checking deliveryAddress products pending errorMessages
  end.

(** Lines 48-55, once a decrement has resolved. *)
Definition updatesSettled (savedOrder : nat * Order.t) (pending : list LineItem.t) : Flight :=
  match pending with
  | [] => Answered (created savedOrder) []
  | _ :: _ => Updating savedOrder pending
  end.

(** Lines 7-25: the shape test, then every read issued. *)
Definition takeOff (body : Body.t) : Flight :=
  match wellShaped body with
  | Some (deliveryAddress, products) => checksSettled deliveryAddress products products []
  | None => Answered invalidInput []
  end.

(** Lines 56-63. *)
Definition createFailed (e : string) : Response :=
  failed "Failed to create a new order" e.

Section Flights.

(** The validators of the Order schema, with the message of the error
    [save] throws when they refuse the document. *)
Variable validationError : Order.t -> option string.

(** The pending call number [call] of a placement settles.  [None] when the
    placement has no such call pending.  While it awaits [newOrder.save()]
    the save is its only call, whatever [call] is; the validators run first,
    so a document they refuse never reaches the store. *)
Definition land (call : nat) (rejected : option string) (flight : Flight) (db : Db.t)
  : option (Db.t * list Event * Flight) :=
  match flight with
  | Checking deliveryAddress products pending errorMessages =>
      match pending !! call, rejected with
      | None, _ => None
      | Some _, Some e =>
          Some (db, [], AnsweredChecking (createFailed e) (delete call pending))
      | Some product, None =>
          Some (db, [ReadProduct (LineItem.productId product)],
                checksSettled deliveryAddress products (delete call pending)
                  (if short db product
                   then errorMessages ++ [notEnough] else errorMessages))
      end
  | Saving deliveryAddress products =>
      let doc := Order.mk deliveryAddress products in
      match validationError doc, rejected with
      | Some e, _ => Some (db, [], Answered (createFailed e) [])
      | None, Some e => Some (db, [], Answered (createFailed e) [])
      | None, None =>
          Some (insertOrder doc db, [InsertOrder (Db.nextId db) doc],
                updatesSettled (Db.nextId db, doc) products)
      end
  | Updating savedOrder pending =>
      match pending !! call, rejected with
      | None, _ => None
      | Some _, Some e => Some (db, [], Answered (createFailed e) (delete call pending))
      | Some product, None =>
          Some (applyInc (LineItem.productId product) (- LineItem.quantity product) db,
                [IncProduct (LineItem.productId product) (- LineItem.quantity product)],
                updatesSettled savedOrder (delete call pending))
      end
  | Answered payload pending =>
      match pending !! call, rejected with
      | None, _ => None
      | Some _, Some _ => Some (db, [], Answered payload (delete call pending))
      | Some product, None =>
          Some (applyInc (LineItem.productId product) (- LineItem.quantity product) db,
                [IncProduct (LineItem.productId product) (- LineItem.quantity product)],
                Answered payload (delete call pending))
      end
  | AnsweredChecking payload pending =>
      match pending !! call, rejected with
      | None, _ => None
      | Some _, Some _ => Some (db, [], AnsweredChecking payload (delete call pending))
      | Some product, None =>
          Some (db, [ReadProduct (LineItem.productId product)],
                AnsweredChecking payload (delete call pending))
      end
  end.

(** The placements in flight, each with the calls of its own that have
    resolved so far. *)
Definition serve (turn : Turn.t) (cfg : Db.t * list (Flight * list Event))
  : Db.t * list (Flight * list Event) :=
  match cfg.2 !! Turn.request turn with
  | Some (flight, tr) =>
      match land (Turn.call turn) (Turn.rejected turn) flight cfg.1 with
      | Some (db', ev, flight') => (db', <[Turn.request turn := (flight', tr ++ ev)]> cfg.2)
      | None => cfg
      end
  | None => cfg
  end.

Definition fly (turns : list Turn.t) (cfg : Db.t * list (Flight * list Event))
  : Db.t * list (Flight * list Event) :=
  foldl (fun c turn => serve turn c) cfg turns.

End Flights.

(** Every placement issued, none of its calls settled yet. *)
Definition takeOffAll (bodies : list Body.t) : list (Flight * list Event) :=
  (fun body => (takeOff body, [])) <$> bodies.

(** The payload of a placement that has answered, whatever is pending. *)
Definition answer (flight : Flight) : option Response :=
  match flight with
  | Answered payload _ | AnsweredChecking payload _ => Some payload
  | _ => None
  end.

(** The payload of a placement that has answered and has no call pending. *)
Definition landed (t : Flight * list Event) : option Response :=
  match t.1 with
  | Answered payload [] | AnsweredChecking payload [] => Some payload
  | _ => None
  end.

(** What a list of resolved calls added to the quantity of one product. *)
Definition incTotal (productId : string) (tr : list Event) : Z :=
  foldr (fun ev total =>
           match ev with
           | IncProduct i d => if decide (i = productId) then d + total else total
           | _ => total
           end)
        0 tr.

(** The same, over all the placements in flight. *)
Definition moved (productId : string) (flights : list (Flight * list Event)) : Z :=
  foldr (fun t total => incTotal productId t.2 + total) 0 flights.

(** How far the calls of a placement have come: only reads so far; or the
    order written and some of its lines decremented, each at most once. *)
Inductive Progress : list Event -> Prop :=
| OnlyReads (read : list LineItem.t) : Progress (reads read)
| OrderWritten (read : list LineItem.t) (id : nat) (doc : Order.t)
               (decremented : list LineItem.t) :
    decremented ⊆+ Order.products doc ->
    Progress (reads read ++ InsertOrder id doc :: incs decremented).

(** The Order schema of [run], with the error text [run] gives it. *)
Definition schemaError (validate : Order.t -> bool) : Order.t -> option string :=
  fun doc => if validate doc then None else Some validationFailed.

(** Every call resolves. *)
Definition noneRejected (turns : list Turn.t) : Prop :=
  Forall (fun turn => Turn.rejected turn = None) turns.

(** What holds of a placement in flight and of the calls of its own that
    have resolved, whatever the other placements do and whichever calls are
    rejected. *)
Definition onCourse (t : Flight * list Event) : Prop :=
  match t.1 with
  | Checking _ _ _ _ | Saving _ _ => exists read, t.2 = reads read
  | Updating savedOrder pending =>
      exists read decremented,
        t.2 = reads read ++ InsertOrder savedOrder.1 savedOrder.2 :: incs decremented
        /\ decremented ++ pending ≡ₚ Order.products savedOrder.2
  | Answered payload pending =>
      (data payload = None /\ status payload <> 201%nat /\ pending = []
       /\ exists read, t.2 = reads read)
      \/ (exists savedOrder read decremented,
            payload = created savedOrder /\ pending = []
            /\ t.2 = reads read ++ InsertOrder savedOrder.1 savedOrder.2 :: incs decremented
            /\ decremented ≡ₚ Order.products savedOrder.2)
      \/ (exists id doc read decremented,
            status payload = 500%nat
            /\ t.2 = reads read ++ InsertOrder id doc :: incs decremented
            /\ decremented ++ pending ⊆+ Order.products doc)
  | AnsweredChecking payload pending =>
      data payload = None /\ status payload = 500%nat /\ exists read, t.2 = reads read
  end.

(** What one placement served alone comes to when none of its calls is
    rejected: the store, the calls in the order of the lines, the payload. *)
Definition expected (validationError : Order.t -> option string) (body : Body.t) (db : Db.t)
  : Db.t * list Event * Response :=
  match wellShaped body with
  | None => (db, [], invalidInput)
  | Some (deliveryAddress, products) =>
      match List.filter (short db) products with
      | (_ :: _) as shortItems =>
          (db, reads products, insufficientQuantity ((fun _ => notEnough) <$> shortItems))
      | [] =>
          let doc := Order.mk deliveryAddress products in
          match validationError doc with
          | Some e => (db, reads products, createFailed e)
          | None =>
              (applyUpdates products (insertOrder doc db),
               reads products ++ InsertOrder (Db.nextId db) doc :: incs products,
               created (Db.nextId db, doc))
          end
      end
  end.

(** What holds of one placement served alone from the store [db0], none of
    its calls rejected, in whichever order they resolve: the reads meet the
    store as it was, the decrements still pending lead to the one final
    store, and the answer is the expected one. *)
Definition alone (validationError : Order.t -> option string) (body : Body.t) (db0 : Db.t)
    (db : Db.t) (flight : Flight) (tr : list Event) : Prop :=
  match flight with
  | Checking deliveryAddress products pending errorMessages =>
      wellShaped body = Some (deliveryAddress, products) /\ db = db0
      /\ exists read,
           tr = reads read /\ read ++ pending ≡ₚ products
           /\ errorMessages = (fun _ => notEnough) <$> List.filter (short db0) read
  | Saving deliveryAddress products =>
      wellShaped body = Some (deliveryAddress, products) /\ db = db0
      /\ List.filter (short db0) products = []
      /\ exists read, tr = reads read /\ read ≡ₚ products
  | Updating savedOrder pending =>
      exists deliveryAddress products,
        wellShaped body = Some (deliveryAddress, products)
        /\ savedOrder = (Db.nextId db0, Order.mk deliveryAddress products)
        /\ List.filter (short db0) products = []
        /\ validationError (Order.mk deliveryAddress products) = None
        /\ (exists read decremented,
              tr = reads read ++ InsertOrder savedOrder.1 savedOrder.2 :: incs decremented
              /\ read ≡ₚ products /\ decremented ++ pending ≡ₚ products)
        /\ applyUpdates pending db
           = applyUpdates products (insertOrder (Order.mk deliveryAddress products) db0)
  | Answered payload pending =>
      pending = []
      /\ db = (expected validationError body db0).1.1
      /\ tr ≡ₚ (expected validationError body db0).1.2
      /\ payload = (expected validationError body db0).2
  | AnsweredChecking _ _ => False
  end.



(** The first pending call of the only placement resolves. *)
Definition first : Turn.t := Turn.mk 0 0 None.

(** Two buyers of three of [A] each. *)
Definition twoBuyers : list Body.t := [order [("A", 3)]; order [("A", 3)]].

(** Both reads resolve before either save. *)
Definition readsFirst : list Turn.t :=
  [Turn.mk 0 0 None; Turn.mk 1 0 None; Turn.mk 0 0 None; Turn.mk 1 0 None;
   Turn.mk 0 0 None; Turn.mk 1 0 None].

(** The first buyer is served to the end before the read of the second
    resolves. *)
Definition oneThenOther : list Turn.t :=
  [Turn.mk 0 0 None; Turn.mk 0 0 None; Turn.mk 0 0 None; Turn.mk 1 0 None].

Definition aAndB : Body.t := order [("A", 2); ("B", 1)].

(** The read and the decrement of the second line resolve before those of
    the first. *)
Definition lastLineFirst : list Turn.t :=
  [Turn.mk 0 1 None; Turn.mk 0 0 None; Turn.mk 0 0 None; Turn.mk 0 1 None; Turn.mk 0 0 None].

(** Reads and save resolve; the decrement of the first line is rejected, the
    decrement of the second resolves after the answer. *)
Definition lostDecrement : list Turn.t :=
  [first; first; first; Turn.mk 0 0 (Some "connection lost"); first].

(** ** What [run] computes *)

Section Sequential.

Variable validate : Order.t -> bool.

Lemma run_bind {A B : Type} (p : Prog A) (f : A -> Prog B) (db : Db.t) :
  run validate (bind p f) db =
  match run validate p db with
  | (db1, tr1, inr a) =>
      let '(db2, tr2, r) := run validate (f a) db1 in (db2, tr1 ++ tr2, r)
  | (db1, tr1, inl e) => (db1, tr1, inl e)
  end.
Proof.
  revert db.
  induction p as [a|e|i k IH|i d k IH|doc k IH|i k IH|i u k IH]; intros db; simpl.
  - by destruct (run validate (f a) db) as [[??]?].
  - done.
  - rewrite IH. destruct (run validate (k _) db) as [[??][?|?]]; [done|].
    by destruct (run validate (f _) _) as [[??]?].
  - rewrite IH. destruct (run validate k _) as [[??][?|?]]; [done|].
    by destruct (run validate (f _) _) as [[??]?].
  - destruct (validate doc); rewrite IH; [|done].
    destruct (run validate (k _) _) as [[??][?|?]]; [done|].
    by destruct (run validate (f _) _) as [[??]?].
  - rewrite IH. destruct (run validate (k _) db) as [[??][?|?]]; [done|].
    by destruct (run validate (f _) _) as [[??]?].
  - rewrite IH. destruct (run validate (k _) _) as [[??][?|?]]; [done|].
    by destruct (run validate (f _) _) as [[??]?].
Qed.

Lemma run_catch {A : Type} (p : Prog A) (h : string -> Prog A) (db : Db.t) :
  run validate (catch p h) db =
  match run validate p db with
  | (db1, tr1, inr a) => (db1, tr1, inr a)
  | (db1, tr1, inl e) =>
      let '(db2, tr2, r) := run validate (h e) db1 in (db2, tr1 ++ tr2, r)
  end.
Proof.
  revert db.
  induction p as [a|e|i k IH|i d k IH|doc k IH|i k IH|i u k IH]; intros db; simpl.
  - done.
  - by destruct (run validate (h e) db) as [[??]?].
  - rewrite IH. destruct (run validate (k _) db) as [[??][?|?]]; [|done].
    by destruct (run validate (h _) _) as [[??]?].
  - rewrite IH. destruct (run validate k _) as [[??][?|?]]; [|done].
    by destruct (run validate (h _) _) as [[??]?].
  - destruct (validate doc); rewrite IH; [|done].
    destruct (run validate (k _) _) as [[??][?|?]]; [|done].
    by destruct (run validate (h _) _) as [[??]?].
  - rewrite IH. destruct (run validate (k _) db) as [[??][?|?]]; [|done].
    by destruct (run validate (h _) _) as [[??]?].
  - rewrite IH. destruct (run validate (k _) _) as [[??][?|?]]; [|done].
    by destruct (run validate (h _) _) as [[??]?].
Qed.

(** [run] is [step] repeated until the handler is done. *)
Lemma run_step {A : Type} (p p' : Prog A) (db db' : Db.t) (ev : list Event) :
  step validate p db = Some (db', ev, p') ->
  run validate p db =
  let '(db2, tr, r) := run validate p' db' in (db2, ev ++ tr, r).
Proof.
  destruct p; simpl; try done.
  - intros [= <- <- <-]. by destruct (run _ _ _) as [[??]?].
  - intros [= <- <- <-]. by destruct (run _ _ _) as [[??]?].
  - destruct (validate doc); intros [= <- <- <-]; by destruct (run _ _ _) as [[??]?].
  - intros [= <- <- <-]. by destruct (run _ _ _) as [[??]?].
  - intros [= <- <- <-]. by destruct (run _ _ _) as [[??]?].
Qed.

(** The availability check reads every product once, in order, writes
    nothing, and pushes one message per line item that fails line 22. *)
Lemma run_productChecks (products : list LineItem.t) (errorMessages : list string)
    (db : Db.t) :
  run validate (productChecks products errorMessages) db =
  (db, reads products,
   inr (errorMessages ++ ((fun _ => notEnough) <$> List.filter (short db) products))).
Proof.
  revert errorMessages.
  induction products as [|product rest IH]; intros errorMessages; simpl.
  - by rewrite app_nil_r.
  - rewrite IH. unfold short at 2.
    destruct (insufficient _ _); simpl; [|done].
    by rewrite <- app_assoc.
Qed.

(** The reservation step applies every decrement, in order, and never fails. *)
Lemma run_productUpdates (products : list LineItem.t) (db : Db.t) :
  run validate (productUpdates products) db =
  (applyUpdates products db, incs products, inr tt).
Proof.
  revert db. induction products as [|product rest IH]; intros db; simpl; [done|].
  by rewrite IH.
Qed.

Lemma createOrder_illShaped (body : Body.t) :
  wellShaped body = None -> createOrder body = Ret invalidInput.
Proof.
  unfold wellShaped, createOrder.
  destruct (Body.deliveryAddress body), (Body.products body) as [[|??]|]; done.
Qed.

(** The whole of [createOrder] on a well-shaped body. *)
Lemma run_createOrder (body : Body.t) (deliveryAddress : gmap string string)
    (products : list LineItem.t) (db : Db.t) :
  wellShaped body = Some (deliveryAddress, products) ->
  run validate (createOrder body) db =
  match List.filter (short db) products with
  | (_ :: _) as shortItems =>
      (db, reads products, inr (insufficientQuantity ((fun _ => notEnough) <$> shortItems)))
  | [] =>
      let doc := Order.mk deliveryAddress products in
      if validate doc
      then (applyUpdates products (insertOrder doc db),
            reads products ++ InsertOrder (Db.nextId db) doc :: incs products,
            inr (created (Db.nextId db, doc)))
      else (db, reads products,
            inr (failed "Failed to create a new order" validationFailed))
  end.
Proof.
  unfold wellShaped, createOrder.
  destruct (Body.deliveryAddress body) as [a|]; [|done].
  destruct (Body.products body) as [[|product rest]|]; [done| |done].
  intros [= <- <-].
  rewrite run_catch. unfold mbind, Prog_bind. rewrite run_bind, run_productChecks.
  rewrite app_nil_l.
  destruct (List.filter (short db) (product :: rest)) as [|s ss] eqn:Hf.
  - cbn [fmap list_fmap length Nat.ltb Nat.leb]. rewrite run_bind. unfold save. simpl.
    destruct (validate _); simpl.
    + rewrite run_bind, run_productUpdates. simpl. by rewrite app_nil_r.
    + by rewrite ?app_nil_r.
  - simpl. by rewrite ?app_nil_r.
Qed.

End Sequential.

(** ** Rejections *)

Section Rejections.

Variable validate : Order.t -> bool.

Lemma wellShaped_None (body : Body.t) :
  wellShaped body = None <->
  Body.deliveryAddress body = None \/ Body.products body = None \/ Body.products body = Some [].
Proof.
  unfold wellShaped.
  destruct (Body.deliveryAddress body), (Body.products body) as [[|??]|];
    split; try done; try (intros [?|[?|?]]; done); auto.
Qed.

(** The three answers of [createOrder] on a well-shaped body, by what the
    availability check and the schema say. *)
Lemma sent_createOrder (body : Body.t) (deliveryAddress : gmap string string)
    (products : list LineItem.t) (db : Db.t) :
  wellShaped body = Some (deliveryAddress, products) ->
  sent (run validate (createOrder body) db) =
  Some (match List.filter (short db) products with
        | (_ :: _) as shortItems => insufficientQuantity ((fun _ => notEnough) <$> shortItems)
        | [] =>
            if validate (Order.mk deliveryAddress products)
            then created (Db.nextId db, Order.mk deliveryAddress products)
            else failed "Failed to create a new order" validationFailed
        end).
Proof.
  intros Hshape. rewrite (run_createOrder _ _ _ _ _ Hshape).
  destruct (List.filter _ _); [|done]. simpl. by destruct (validate _).
Qed.

(** C6, as amended: a request whose delivery address is missing, or whose
    line-item list is missing or empty, is answered with the input-validation
    rejection before any store access, and the store is left as it was. *)
Theorem illShaped_rejected_without_store_access (body : Body.t) (db : Db.t) :
  Body.deliveryAddress body = None \/ Body.products body = None
    \/ Body.products body = Some [] ->
  sent (run validate (createOrder body) db) = Some invalidInput
  /\ trace (run validate (createOrder body) db) = []
  /\ finalDb (run validate (createOrder body) db) = db.
Proof.
  intros Hshape. apply wellShaped_None in Hshape.
  by rewrite (createOrder_illShaped _ Hshape).
Qed.

(** Shape validation looks at nothing else: a well-shaped body is never
    answered with the input-validation rejection, and its products are read. *)
Lemma wellShaped_reads_store (body : Body.t) (deliveryAddress : gmap string string)
    (products : list LineItem.t) (db : Db.t) :
  wellShaped body = Some (deliveryAddress, products) ->
  sent (run validate (createOrder body) db) <> Some invalidInput
  /\ reads products `prefix_of` trace (run validate (createOrder body) db)
  /\ products <> [].
Proof.
  intros Hshape. split; [|split].
  - rewrite (sent_createOrder _ _ _ _ Hshape).
    destruct (List.filter _ _); [destruct (validate _)|]; done.
  - rewrite (run_createOrder _ _ _ _ _ Hshape). cbv zeta.
    destruct (List.filter _ _); [destruct (validate _)|]; unfold trace; simpl;
      try done. by apply prefix_app_r.
  - unfold wellShaped in Hshape.
    destruct (Body.deliveryAddress body), (Body.products body) as [[|??]|];
      by simplify_eq.
Qed.

(** C5: a placement rejected for insufficient stock leaves the whole store
    exactly as it was, and every store access it made was a product read. *)
Theorem shortage_rejection_leaves_store_unchanged (body : Body.t) (db : Db.t)
    (errorMessages : list string) :
  sent (run validate (createOrder body) db) = Some (insufficientQuantity errorMessages) ->
  finalDb (run validate (createOrder body) db) = db
  /\ forall ev, ev ∈ trace (run validate (createOrder body) db) ->
       exists productId, ev = ReadProduct productId.
Proof.
  destruct (wellShaped body) as [[deliveryAddress products]|] eqn:Hshape.
  - rewrite (sent_createOrder _ _ _ _ Hshape), (run_createOrder _ _ _ _ _ Hshape).
    cbv zeta. destruct (List.filter _ _) as [|s ss].
    + destruct (validate _); intros [=].
    + intros _. unfold finalDb, trace; simpl. split; [done|].
      intros ev [product [-> _]]%list_elem_of_fmap. eauto.
  - by rewrite (createOrder_illShaped _ Hshape).
Qed.

(** A missing product and an understocked one fail line 22 alike. *)
Lemma insufficient_missing_as_understocked (p : Product.t) (quantity : Z) :
  Product.quantity p < quantity ->
  insufficient None quantity = insufficient (Some p) quantity.
Proof. intros Hlt. simpl. symmetry. by apply Z.ltb_lt. Qed.

(** C8: a line item whose [productId] matches no stored product fails the
    availability check as an understocked one does: the request is answered
    with the shortage rejection (not with an error of another kind, and
    nothing is thrown), with one message per failing line item. *)
Theorem missing_product_is_insufficient (body : Body.t)
    (deliveryAddress : gmap string string) (products : list LineItem.t)
    (product : LineItem.t) (db : Db.t) :
  wellShaped body = Some (deliveryAddress, products) ->
  product ∈ products ->
  Db.Product db !! LineItem.productId product = None ->
  short db product = true
  /\ exists errorMessages,
       run validate (createOrder body) db =
         (db, reads products, inr (insufficientQuantity errorMessages))
       /\ notEnough ∈ errorMessages
       /\ length errorMessages = length (List.filter (short db) products).
Proof.
  intros Hshape Hin Hmissing.
  assert (Hshort : short db product = true) by (unfold short; by rewrite Hmissing).
  split; [done|].
  assert (Hf : product ∈ List.filter (short db) products).
  { apply list_elem_of_In, filter_In. split; [by apply list_elem_of_In|done]. }
  rewrite (run_createOrder _ _ _ _ _ Hshape).
  destruct (List.filter (short db) products) as [|s ss]; [by apply elem_of_nil in Hf|].
  eexists. split; [done|]. split.
  - simpl. left.
  - by rewrite length_fmap.
Qed.

(** C10: a single line item with a negative quantity, against an existing
    product whose stock is not negative, passes the shape validation and the
    availability check; if the Order schema takes the document, the order is
    accepted and the stock grows by the absolute value of the quantity. *)
Theorem negative_quantity_accepted_and_stock_grows (deliveryAddress : gmap string string)
    (productId : string) (quantity : Z) (p : Product.t) (db : Db.t) :
  let products := [LineItem.mk productId quantity] in
  let body := Body.mk (Some deliveryAddress) (Some products) in
  Db.Product db !! productId = Some p ->
  0 <= Product.quantity p ->
  quantity < 0 ->
  validate (Order.mk deliveryAddress products) = true ->
  wellShaped body = Some (deliveryAddress, products)
  /\ List.filter (short db) products = []
  /\ sent (run validate (createOrder body) db)
     = Some (created (Db.nextId db, Order.mk deliveryAddress products))
  /\ stock (finalDb (run validate (createOrder body) db)) productId
     = Some (Product.quantity p + Z.abs quantity).
Proof.
  intros products body Hp Hstock Hneg Hvalid.
  assert (Hshape : wellShaped body = Some (deliveryAddress, products)) by done.
  assert (Hcheck : List.filter (short db) products = []).
  { simpl. unfold short. simpl. rewrite Hp. simpl.
    destruct (Z.ltb_spec (Product.quantity p) quantity); [lia|done]. }
  split; [done|]. split; [done|].
  rewrite (sent_createOrder _ _ _ _ Hshape), (run_createOrder _ _ _ _ _ Hshape).
  rewrite Hcheck. simpl. rewrite Hvalid. split; [done|].
  unfold finalDb, stock, applyUpdates, applyInc; simpl.
  rewrite lookup_alter_eq, Hp. simpl. f_equal. lia.
Qed.

End Rejections.

(** ** Accepted placements *)

Section Accepted.

Variable validate : Order.t -> bool.

(** An accepted placement is a well-shaped one whose every line item passed
    line 22 and whose document the schema took. *)
Lemma created_inv (body : Body.t) (db : Db.t) (savedOrder : nat * Order.t) :
  sent (run validate (createOrder body) db) = Some (created savedOrder) ->
  exists deliveryAddress products,
    wellShaped body = Some (deliveryAddress, products)
    /\ List.filter (short db) products = []
    /\ validate (Order.mk deliveryAddress products) = true
    /\ savedOrder = (Db.nextId db, Order.mk deliveryAddress products).
Proof.
  destruct (wellShaped body) as [[deliveryAddress products]|] eqn:Hshape.
  - rewrite (sent_createOrder _ _ _ _ _ Hshape).
    destruct (List.filter _ _) as [|s ss] eqn:Hf; [|intros [=]].
    destruct (validate _) eqn:Hv; intros [= <-]. eauto 6.
  - by rewrite (createOrder_illShaped _ Hshape).
Qed.

(** C4, as amended: in every accepted placement the order document is
    written after every availability read and before every stock decrement. *)
Theorem order_saved_after_checks_before_decrements (body : Body.t) (db : Db.t)
    (savedOrder : nat * Order.t) :
  sent (run validate (createOrder body) db) = Some (created savedOrder) ->
  exists deliveryAddress products,
    wellShaped body = Some (deliveryAddress, products)
    /\ trace (run validate (createOrder body) db)
       = reads products ++ InsertOrder savedOrder.1 savedOrder.2 :: incs products
    /\ finalDb (run validate (createOrder body) db)
       = applyUpdates products (insertOrder savedOrder.2 db).
Proof.
  intros (deliveryAddress & products & Hshape & Hf & Hv & ->)%created_inv.
  exists deliveryAddress, products. split; [done|].
  rewrite (run_createOrder _ _ _ _ _ Hshape), Hf. cbv zeta. by rewrite Hv.
Qed.

(** C7, as amended: the payload of a shortage rejection holds one entry per
    line item that failed line 22, whatever its position in the list, and
    every entry is the same fixed message. *)
Theorem shortage_payload_counts_short_items (body : Body.t) (db : Db.t)
    (errorMessages : list string) :
  sent (run validate (createOrder body) db) = Some (insufficientQuantity errorMessages) ->
  exists deliveryAddress products,
    wellShaped body = Some (deliveryAddress, products)
    /\ errorMessages = replicate (length (List.filter (short db) products)) notEnough
    /\ (0 < length errorMessages)%nat.
Proof.
  destruct (wellShaped body) as [[deliveryAddress products]|] eqn:Hshape.
  - rewrite (sent_createOrder _ _ _ _ _ Hshape).
    destruct (List.filter _ _) as [|s ss] eqn:Hf.
    + destruct (validate _); intros [=].
    + intros [= <-]. exists deliveryAddress, products. rewrite Hf.
      split; [reflexivity|]. split; [|simpl; lia].
      simpl. f_equal. clear Hf. induction ss as [|? ? IH]; [done|].
      simpl. by f_equal.
  - by rewrite (createOrder_illShaped _ Hshape).
Qed.

(** The decrement of lines 43-45 on the store: the product it names loses
    [quantity], whatever it holds; the others are untouched. *)
Lemma applyInc_stock (productId : string) (inc : Z) (db : Db.t) (other : string) :
  stock (applyInc productId inc db) other =
  if decide (productId = other) then (fun q => q + inc) <$> stock db other
  else stock db other.
Proof.
  unfold stock, applyInc; simpl. rewrite lookup_alter.
  case_decide; [|done]. subst other. by destruct (Db.Product db !! productId).
Qed.

(** C3, as amended: when the product holds at least the requested quantity
    at the moment of the decrement, the reservation step does what the
    conditional decrement of the spec does: it takes exactly that quantity
    from the product and changes no other product. *)
Theorem reservation_decrements_when_stock_suffices (product : LineItem.t)
    (rest : list LineItem.t) (db : Db.t) (p : Product.t) :
  Db.Product db !! LineItem.productId product = Some p ->
  LineItem.quantity product <= Product.quantity p ->
  exists db',
    step validate (productUpdates (product :: rest)) db
      = Some (db', [IncProduct (LineItem.productId product) (- LineItem.quantity product)],
              productUpdates rest)
    /\ conditionalDecrement (LineItem.productId product) (LineItem.quantity product) db
       = Some db'
    /\ stock db' (LineItem.productId product)
       = Some (Product.quantity p - LineItem.quantity product)
    /\ forall other, other <> LineItem.productId product ->
         Db.Product db' !! other = Db.Product db !! other.
Proof.
  intros Hp Hle. eexists. split; [reflexivity|]. split; [|split].
  - unfold conditionalDecrement. rewrite Hp.
    destruct (Z.leb_spec (LineItem.quantity product) (Product.quantity p)); [|lia].
    unfold applyInc. do 2 f_equal. apply map_eq. intros other.
    rewrite lookup_alter, lookup_insert.
    case_decide; [|done]. by rewrite Hp.
  - rewrite applyInc_stock. rewrite decide_True by done.
    unfold stock. by rewrite Hp.
  - intros other Hne. unfold applyInc; simpl. by rewrite lookup_alter_ne.
Qed.

End Accepted.

(** ** updateOrder *)

Section Update.

Variable validate : Order.t -> bool.

Lemma run_updateOrder (id : nat) (body : Body.t) (db : Db.t) (existingOrder : Order.t) :
  Db.Order db !! id = Some existingOrder ->
  run validate (updateOrder (Some id) body) db =
  (applyUpdate id (mergeAddress existingOrder body) db,
   [ReadOrder id; UpdateOrder id (mergeAddress existingOrder body)],
   inr (updated id (Some (setFields (mergeAddress existingOrder body) existingOrder)))).
Proof.
  intros Hfound. unfold updateOrder. rewrite run_catch. simpl. rewrite Hfound. simpl.
  by rewrite lookup_alter_eq, Hfound.
Qed.


End Update.

(** ** Requests in flight together *)

Section Interleaving.

Variable validate : Order.t -> bool.

#[local] Arguments applyInc : simpl never.
#[local] Arguments applyUpdate : simpl never.
#[local] Arguments insertOrder : simpl never.

Lemma runSchedule_cons {A : Type} (i : nat) (schedule : list nat)
    (cfg : Db.t * list (Prog A)) :
  runSchedule validate (i :: schedule) cfg
  = runSchedule validate schedule (turn validate i cfg).
Proof. done. Qed.

(** A request that is given every turn ends as [run] says. *)
Lemma solo_schedule {A : Type} (p : Prog A) (db : Db.t) :
  exists n,
    runSchedule validate (replicate n 0%nat) (db, [p])
    = (finalDb (run validate p db), [finished (outcome (run validate p db))]).
Proof.
  revert db.
  induction p as [a|e|i k IH|i d k IH|doc k IH|i k IH|i u k IH]; intros db.
  - by exists 0%nat.
  - by exists 0%nat.
  - destruct (IH (Db.Product db !! i) db) as [n Hn]. exists (S n).
    simpl replicate. rewrite runSchedule_cons. unfold turn; simpl. rewrite Hn.
    by destruct (run validate (k _) db) as [[??]?].
  - destruct (IH (applyInc i d db)) as [n Hn]. exists (S n).
    simpl replicate. rewrite runSchedule_cons. unfold turn; simpl. rewrite Hn.
    by destruct (run validate k _) as [[??]?].
  - destruct (validate doc) eqn:Hv.
    + destruct (IH (inr (Db.nextId db, doc)) (insertOrder doc db)) as [n Hn].
      exists (S n).
      simpl replicate. rewrite runSchedule_cons. unfold turn; simpl. rewrite Hv, Hn.
      by destruct (run validate (k _) _) as [[??]?].
    + destruct (IH (inl validationFailed) db) as [n Hn]. exists (S n).
      simpl replicate. rewrite runSchedule_cons. unfold turn; simpl. by rewrite Hv, Hn.
  - destruct (IH (Db.Order db !! i) db) as [n Hn]. exists (S n).
    simpl replicate. rewrite runSchedule_cons. unfold turn; simpl. rewrite Hn.
    by destruct (run validate (k _) db) as [[??]?].
  - destruct (IH (Db.Order (applyUpdate i u db) !! i) (applyUpdate i u db)) as [n Hn].
    exists (S n).
    simpl replicate. rewrite runSchedule_cons. unfold turn; simpl. simpl in Hn. rewrite Hn.
    by destruct (run validate (k _) _) as [[??]?].
Qed.

End Interleaving.

(** ** Accounting of an accepted placement *)

Section Accounting.

Variable validate : Order.t -> bool.

Lemma stock_applyUpdates (products : list LineItem.t) (db : Db.t) (productId : string) :
  stock (applyUpdates products db) productId
  = (fun q => q - requested productId products) <$> stock db productId.
Proof.
  revert db. induction products as [|product rest IH]; intros db.
  - simpl. destruct (stock db productId); simpl; [f_equal; lia|done].
  - change (applyUpdates (product :: rest) db)
      with (applyUpdates rest
              (applyInc (LineItem.productId product) (- LineItem.quantity product) db)).
    rewrite IH, applyInc_stock. simpl.
    case_decide; [|done].
    destruct (stock db productId); simpl; [f_equal; lia|done].
Qed.

Lemma stock_insertOrder (doc : Order.t) (db : Db.t) (productId : string) :
  stock (insertOrder doc db) productId = stock db productId.
Proof. done. Qed.

(** The two steps of one [Promise.all] do not depend on the order in which
    the awaited calls are served: decrements commute. *)
Lemma applyInc_commute (i j : string) (d e : Z) (db : Db.t) :
  applyInc i d (applyInc j e db) = applyInc j e (applyInc i d db).
Proof.
  unfold applyInc; simpl. f_equal. apply map_eq. intros x.
  rewrite !lookup_alter.
  repeat case_decide; simplify_eq; try done.
  destruct (Db.Product db !! _) as [[details q]|]; simpl; [|done].
  unfold incQuantity; simpl. do 2 f_equal. lia.
Qed.

Lemma applyUpdates_Permutation (products products' : list LineItem.t) (db : Db.t) :
  products ≡ₚ products' -> applyUpdates products db = applyUpdates products' db.
Proof.
  intros Hperm. revert db.
  induction Hperm as [|x l l' _ IH|x y l|l l' l'' _ IH1 _ IH2]; intros db.
  - done.
  - apply IH.
  - unfold applyUpdates; simpl. by rewrite applyInc_commute.
  - by rewrite IH1.
Qed.

Lemma requested_not_named (productId : string) (products : list LineItem.t) :
  productId ∉ (LineItem.productId <$> products) -> requested productId products = 0.
Proof.
  induction products as [|product rest IH]; [done|].
  simpl. rewrite not_elem_of_cons. intros [Hne Hnotin].
  rewrite decide_False by done. by apply IH.
Qed.

Lemma requested_le_stock (products : list LineItem.t) (db : Db.t)
    (productId : string) (q : Z) :
  NoDup (LineItem.productId <$> products) ->
  List.filter (short db) products = [] ->
  stock db productId = Some q ->
  0 <= q ->
  requested productId products <= q.
Proof.
  intros Hnodup Hcheck Hq Hnonneg.
  induction products as [|product rest IH]; [done|].
  simpl in *. apply NoDup_cons in Hnodup as [Hfresh Hnodup].
  destruct (short db product) eqn:Hshort; [done|].
  case_decide as Hid.
  - subst productId. rewrite (requested_not_named _ _ Hfresh).
    unfold short, stock in *.
    destruct (Db.Product db !! LineItem.productId product) as [p|]; [|done].
    simpl in *. injection Hq as <-. apply Z.ltb_ge in Hshort. lia.
  - by apply IH.
Qed.

(** The store an accepted placement leaves behind. *)
Lemma finalDb_accepted (body : Body.t) (db : Db.t) (savedOrder : nat * Order.t) :
  sent (run validate (createOrder body) db) = Some (created savedOrder) ->
  finalDb (run validate (createOrder body) db)
  = applyUpdates (Order.products savedOrder.2) (insertOrder savedOrder.2 db).
Proof.
  intros (deliveryAddress & products & Hshape & Hcheck & Hvalid & ->)%created_inv.
  rewrite (run_createOrder _ _ _ _ _ Hshape), Hcheck. cbv zeta. by rewrite Hvalid.
Qed.

(** Every product loses the total its lines asked of it, tested or not. *)
Theorem accepted_stock_accounting (body : Body.t) (db : Db.t)
    (savedOrder : nat * Order.t) (productId : string) :
  sent (run validate (createOrder body) db) = Some (created savedOrder) ->
  stock (finalDb (run validate (createOrder body) db)) productId
  = (fun q => q - requested productId (Order.products savedOrder.2))
      <$> stock db productId.
Proof.
  intros Hsent.
  by rewrite (finalDb_accepted _ _ _ Hsent), stock_applyUpdates, stock_insertOrder.
Qed.

(** When no two lines of an accepted placement name the same product, no
    quantity turns negative. *)
Theorem accepted_distinct_lines_keep_stock_nonNegative (body : Body.t) (db : Db.t)
    (savedOrder : nat * Order.t) :
  sent (run validate (createOrder body) db) = Some (created savedOrder) ->
  NoDup (LineItem.productId <$> Order.products savedOrder.2) ->
  nonNegative db ->
  nonNegative (finalDb (run validate (createOrder body) db)).
Proof.
  intros Hsent Hnodup Hdb productId q.
  rewrite (finalDb_accepted _ _ _ Hsent), stock_applyUpdates, stock_insertOrder.
  apply created_inv in Hsent as (a & l & _ & Hcheck & _ & ->). simpl in *.
  destruct (stock db productId) as [q0|] eqn:Hq0; [|done].
  simpl. intros [= <-].
  pose proof (requested_le_stock _ _ _ _ Hnodup Hcheck Hq0 (Hdb _ _ Hq0)). lia.
Qed.

End Accounting.

(** ** The spec's scenarios and the claims on concrete stores *)

Example scenario1 :
  let r := run noValidators (createOrder (order [("A", 3)])) (inventory [("A", 5)]) in
  (status <$> sent r) = Some 201%nat /\ stock (finalDb r) "A" = Some 2.
Proof. vm_compute. split; reflexivity. Qed.
Example scenario3 :
  let r := run noValidators (createOrder (order [("A", 2); ("B", 2)]))
               (inventory [("A", 5); ("B", 1)]) in
  sent r = Some (insufficientQuantity [notEnough])
  /\ stock (finalDb r) "A" = Some 5 /\ stock (finalDb r) "B" = Some 1.
Proof. vm_compute. repeat split; reflexivity. Qed.

(** C2, on the code: one placement whose two lines both ask three of a
    product that holds five passes line 22 twice (5 >= 3 each time), is
    accepted, and leaves the product at minus one. *)
Lemma duplicate_lines_drive_stock_negative :
  let db := inventory [("A", 5)] in
  let r := run noValidators (createOrder twoThrees) db in
  nonNegative db
  /\ (status <$> sent r) = Some 201%nat
  /\ stock (finalDb r) "A" = Some (-1)
  /\ ~ nonNegative (finalDb r).
Proof.
  cbv zeta. split; [|split; [|split]].
  - intros i q. unfold stock, inventory; simpl. rewrite insert_empty.
    intros (p & Hp & ->)%fmap_Some. by apply lookup_singleton_Some in Hp as [_ <-].
  - vm_compute. reflexivity.
  - vm_compute. reflexivity.
  - intros Hnn. assert (H : 0 <= -1); [|lia].
    apply (Hnn "A"). vm_compute. reflexivity.
Qed.

(** C1, on the code: two placements in flight together, each asking three
    of a product that holds five.  Both availability reads are served before
    either decrement; both placements are accepted, six are sold out of
    five, and the product is left at minus one. *)
Lemma interleaved_placements_oversell :
  let db := inventory [("A", 5)] in
  let placement := createOrder (order [("A", 3)]) in
  let doc := Order.mk address1 [LineItem.mk "A" 3] in
  let cfg := runSchedule noValidators [0; 1; 0; 1; 0; 1]%nat (db, [placement; placement]) in
  cfg.2 = [Ret (created (0%nat, doc)); Ret (created (1%nat, doc))]
  /\ stock cfg.1 "A" = Some (-1)
  /\ 5 < 3 + 3.
Proof. cbv zeta. split; [|split]; [vm_compute; reflexivity..|lia]. Qed.

(** Served one after the other, the same two placements end as the spec's
    scenario 4 says: one accepted, one rejected, two left. *)
Example scenario4_one_after_the_other :
  let db := inventory [("A", 5)] in
  let placement := createOrder (order [("A", 3)]) in
  let cfg := runSchedule noValidators [0; 0; 0; 1; 1; 1]%nat (db, [placement; placement]) in
  (exists saved, cfg.2 = [Ret (created saved); Ret (insufficientQuantity [notEnough])])
  /\ stock cfg.1 "A" = Some 2.
Proof. cbv zeta. split; [eexists|]; vm_compute; reflexivity. Qed.

(** C3, against the claim as stated: the decrement of the reservation step
    is applied to a product that holds less than the line asks.  The
    conditional decrement of the spec fails the item and changes nothing;
    the code's step does not fail and leaves minus one.  The second half
    shows the same inside [createOrder]: after four awaits of the placement
    [twoThrees] the product holds two, and the next await takes three from
    it. *)
Lemma reservation_decrement_is_unconditional :
  let db := inventory [("A", 2)] in
  let r := run noValidators (productUpdates [LineItem.mk "A" 3]) db in
  let cfg := runSchedule noValidators [0; 0; 0; 0]%nat
               (inventory [("A", 5)], [createOrder twoThrees]) in
  (stock db "A" = Some 2
   /\ conditionalDecrement "A" 3 db = None
   /\ outcome r = inr tt
   /\ stock (finalDb r) "A" = Some (-1))
  /\ (stock cfg.1 "A" = Some 2
      /\ conditionalDecrement "A" 3 cfg.1 = None
      /\ stock (turn noValidators 0 cfg).1 "A" = Some (-1)).
Proof. cbv zeta. repeat split; vm_compute; reflexivity. Qed.

(** The amended C3 on the store of scenario 1. *)
Lemma reservation_decrement_witness :
  exists db',
    step noValidators (productUpdates [LineItem.mk "A" 3]) (inventory [("A", 5)])
      = Some (db', [IncProduct "A" (-3)], productUpdates [])
    /\ conditionalDecrement "A" 3 (inventory [("A", 5)]) = Some db'
    /\ stock db' "A" = Some (5 - 3)
    /\ forall other, other <> "A" ->
         Db.Product db' !! other = Db.Product (inventory [("A", 5)]) !! other.
Proof.
  apply (reservation_decrements_when_stock_suffices noValidators
           (LineItem.mk "A" 3) [] (inventory [("A", 5)]) (Product.mk "" 5)).
  - vm_compute. reflexivity.
  - simpl. lia.
Defined.

(** C4, against the claim as stated: in this accepted placement the order
    document is written second and the stock decremented third. *)
Lemma order_saved_before_decrement :
  let r := run noValidators (createOrder (order [("A", 3)])) (inventory [("A", 5)]) in
  (status <$> sent r) = Some 201%nat
  /\ trace r = [ReadProduct "A";
                InsertOrder 0 (Order.mk address1 [LineItem.mk "A" 3]);
                IncProduct "A" (-3)].
Proof. cbv zeta. split; vm_compute; reflexivity. Qed.

(** The amended C4 on scenario 1. *)
Lemma order_saved_after_checks_witness :
  let body := order [("A", 3)] in
  let db := inventory [("A", 5)] in
  exists deliveryAddress products,
    wellShaped body = Some (deliveryAddress, products)
    /\ trace (run noValidators (createOrder body) db)
       = reads products
         ++ InsertOrder 0 (Order.mk address1 [LineItem.mk "A" 3]) :: incs products
    /\ finalDb (run noValidators (createOrder body) db)
       = applyUpdates products
           (insertOrder (Order.mk address1 [LineItem.mk "A" 3]) db).
Proof.
  apply (order_saved_after_checks_before_decrements noValidators
           (order [("A", 3)]) (inventory [("A", 5)])
           (0%nat, Order.mk address1 [LineItem.mk "A" 3])).
  vm_compute. reflexivity.
Defined.

(** C5 on scenario 3. *)
Lemma shortage_rejection_witness :
  finalDb (run noValidators (createOrder twoAndTwo) fiveAndOne) = fiveAndOne
  /\ forall ev, ev ∈ trace (run noValidators (createOrder twoAndTwo) fiveAndOne) ->
       exists productId, ev = ReadProduct productId.
Proof.
  apply (shortage_rejection_leaves_store_unchanged noValidators
           twoAndTwo fiveAndOne [notEnough]).
  vm_compute. reflexivity.
Defined.

(** C6, against the claim as stated: a line with quantity minus two, in a
    body that has an address, is not refused by the shape validation.  With
    a schema without validators the order is accepted and the stock grows
    from five to seven; with a schema that refuses such a line, [save]
    throws after the product was read, and the answer is the 500 of the
    [catch] block. *)
Lemma nonpositive_quantity_passes_validation :
  let body := order [("A", -2)] in
  let db := inventory [("A", 5)] in
  let r := run noValidators (createOrder body) db in
  let r' := run positiveQuantities (createOrder body) db in
  Body.products body = Some [LineItem.mk "A" (-2)]
  /\ ((status <$> sent r) = Some 201%nat
      /\ trace r = [ReadProduct "A";
                    InsertOrder 0 (Order.mk address1 [LineItem.mk "A" (-2)]);
                    IncProduct "A" 2]
      /\ stock (finalDb r) "A" = Some 7)
  /\ (sent r' = Some (failed "Failed to create a new order" validationFailed)
      /\ trace r' = [ReadProduct "A"]).
Proof. cbv zeta. repeat split; vm_compute; reflexivity. Qed.

(** The amended C6 on a body without a delivery address (scenario 5). *)
Lemma illShaped_rejected_witness :
  let body := Body.mk None (Some [LineItem.mk "A" 1]) in
  let db := inventory [("A", 5)] in
  sent (run noValidators (createOrder body) db) = Some invalidInput
  /\ trace (run noValidators (createOrder body) db) = []
  /\ finalDb (run noValidators (createOrder body) db) = db.
Proof.
  apply (illShaped_rejected_without_store_access noValidators
           (Body.mk None (Some [LineItem.mk "A" 1])) (inventory [("A", 5)])).
  left. reflexivity.
Defined.

(** C7, against the claim as stated: two placements that fall short on
    different products are answered with the same payload, which names
    neither product. *)
Lemma shortage_payload_names_no_product :
  let db := inventory [("A", 1); ("B", 1)] in
  let first := [LineItem.mk "A" 2; LineItem.mk "B" 1] in
  let second := [LineItem.mk "A" 1; LineItem.mk "B" 2] in
  let r1 := run noValidators (createOrder (Body.mk (Some address1) (Some first))) db in
  let r2 := run noValidators (createOrder (Body.mk (Some address1) (Some second))) db in
  (LineItem.productId <$> List.filter (short db) first) = ["A"]
  /\ (LineItem.productId <$> List.filter (short db) second) = ["B"]
  /\ sent r1 = Some (insufficientQuantity [notEnough])
  /\ sent r2 = Some (insufficientQuantity [notEnough]).
Proof. cbv zeta. repeat split; vm_compute; reflexivity. Qed.

(** The amended C7 on scenario 3. *)
Lemma shortage_payload_witness :
  exists deliveryAddress products,
    wellShaped twoAndTwo = Some (deliveryAddress, products)
    /\ [notEnough] = replicate (length (List.filter (short fiveAndOne) products)) notEnough
    /\ (0 < length [notEnough])%nat.
Proof.
  apply (shortage_payload_counts_short_items noValidators twoAndTwo fiveAndOne [notEnough]).
  vm_compute. reflexivity.
Defined.

(** C8 on a store that holds no product Z. *)
Lemma missing_product_witness :
  let db := inventory [("A", 5)] in
  let products := [LineItem.mk "A" 1; LineItem.mk "Z" 1] in
  short db (LineItem.mk "Z" 1) = true
  /\ exists errorMessages,
       run noValidators (createOrder (Body.mk (Some address1) (Some products))) db
         = (db, reads products, inr (insufficientQuantity errorMessages))
       /\ notEnough ∈ errorMessages
       /\ length errorMessages = length (List.filter (short db) products).
Proof.
  apply (missing_product_is_insufficient noValidators
           (Body.mk (Some address1) (Some [LineItem.mk "A" 1; LineItem.mk "Z" 1]))
           address1 [LineItem.mk "A" 1; LineItem.mk "Z" 1] (LineItem.mk "Z" 1)
           (inventory [("A", 5)])).
  - reflexivity.
  - right. left.
  - vm_compute. reflexivity.
Defined.

(** C10 on a store that holds five of A, for a line asking minus two. *)
Lemma negative_quantity_witness :
  let products := [LineItem.mk "A" (-2)] in
  let body := Body.mk (Some address1) (Some products) in
  let db := inventory [("A", 5)] in
  wellShaped body = Some (address1, products)
  /\ List.filter (short db) products = []
  /\ sent (run noValidators (createOrder body) db)
     = Some (created (Db.nextId db, Order.mk address1 products))
  /\ stock (finalDb (run noValidators (createOrder body) db)) "A"
     = Some (5 + Z.abs (-2)).
Proof.
  apply (negative_quantity_accepted_and_stock_grows noValidators
           address1 "A" (-2) (Product.mk "" 5) (inventory [("A", 5)])).
  - vm_compute. reflexivity.
  - simpl. lia.
  - lia.
  - reflexivity.
Defined.



(** The accounting on the placement with two lines on one product. *)
Lemma accepted_stock_accounting_witness :
  stock (finalDb (run noValidators (createOrder twoThrees) (inventory [("A", 5)]))) "A"
  = (fun q => q - requested "A" [LineItem.mk "A" 3; LineItem.mk "A" 3])
      <$> stock (inventory [("A", 5)]) "A".
Proof.
  apply (accepted_stock_accounting noValidators twoThrees (inventory [("A", 5)])
           (0%nat, Order.mk address1 [LineItem.mk "A" 3; LineItem.mk "A" 3]) "A").
  vm_compute. reflexivity.
Defined.

Lemma nonNegative_fiveAndOne : nonNegative fiveAndOne.
Proof.
  intros i q. unfold stock, fiveAndOne, inventory; simpl.
  intros (p & Hp & ->)%fmap_Some.
  apply lookup_insert_Some in Hp as [[_ <-]|[_ Hp]]; [done|].
  apply lookup_insert_Some in Hp as [[_ <-]|[_ Hp]]; done.
Qed.

(** A placement with one line per product on the store of scenario 3. *)
Lemma accepted_distinct_lines_witness :
  nonNegative (finalDb (run noValidators (createOrder (order [("A", 2); ("B", 1)]))
                            fiveAndOne)).
Proof.
  apply (accepted_distinct_lines_keep_stock_nonNegative noValidators
           (order [("A", 2); ("B", 1)]) fiveAndOne
           (0%nat, Order.mk address1 [LineItem.mk "A" 2; LineItem.mk "B" 1])).
  - vm_compute. reflexivity.
  - simpl. apply NoDup_cons. split; [|apply NoDup_singleton].
    intros Hin%list_elem_of_singleton. discriminate Hin.
  - exact nonNegative_fiveAndOne.
Defined.

(** The two decrements of one placement, served in either order. *)
Lemma applyUpdates_Permutation_witness :
  applyUpdates [LineItem.mk "A" 2; LineItem.mk "B" 1] fiveAndOne
  = applyUpdates [LineItem.mk "B" 1; LineItem.mk "A" 2] fiveAndOne.
Proof.
  apply (applyUpdates_Permutation
           [LineItem.mk "A" 2; LineItem.mk "B" 1] [LineItem.mk "B" 1; LineItem.mk "A" 2]
           fiveAndOne).
  apply perm_swap.
Defined.

(** ** createOrder: every answer, and what each leaves in the store *)

Section Answers.

Variable validate : Order.t -> bool.


Lemma applyUpdates_orders (products : list LineItem.t) (db : Db.t) :
  Db.Order (applyUpdates products db) = Db.Order db
  /\ Db.nextId (applyUpdates products db) = Db.nextId db.
Proof.
  revert db. induction products as [|product rest IH]; intros db; [done|].
  change (applyUpdates (product :: rest) db)
    with (applyUpdates rest
            (applyInc (LineItem.productId product) (- LineItem.quantity product) db)).
  destruct (IH (applyInc (LineItem.productId product) (- LineItem.quantity product) db))
    as [-> ->]. done.
Qed.

(** The store of an accepted placement, order side: the document is the
    body's address and lines, stored under the counter's key, and the
    counter moves on. *)
Lemma orders_accepted (body : Body.t) (db : Db.t) (savedOrder : nat * Order.t) :
  sent (run validate (createOrder body) db) = Some (created savedOrder) ->
  savedOrder.1 = Db.nextId db
  /\ Db.Order (finalDb (run validate (createOrder body) db))
     = <[savedOrder.1 := savedOrder.2]> (Db.Order db)
  /\ Db.nextId (finalDb (run validate (createOrder body) db)) = S (Db.nextId db)
  /\ wellShaped body = Some (Order.deliveryAddress savedOrder.2, Order.products savedOrder.2).
Proof.
  intros Hsent. rewrite (finalDb_accepted _ _ _ _ Hsent).
  apply created_inv in Hsent as (deliveryAddress & products & Hshape & _ & _ & ->).
  simpl. by destruct (applyUpdates_orders products
                        (insertOrder (Order.mk deliveryAddress products) db)) as [-> ->].
Qed.

(** Order fidelity: an accepted placement stores, under the id it returns,
    exactly the address and the lines of the request; that id held no order
    before, and every order stored before is still there unchanged. *)
Theorem accepted_order_is_stored (body : Body.t) (db : Db.t) (savedOrder : nat * Order.t) :
  keysBelowCounter db ->
  sent (run validate (createOrder body) db) = Some (created savedOrder) ->
  let db' := finalDb (run validate (createOrder body) db) in
  Body.deliveryAddress body = Some (Order.deliveryAddress savedOrder.2)
  /\ Body.products body = Some (Order.products savedOrder.2)
  /\ Db.Order db !! savedOrder.1 = None
  /\ Db.Order db' !! savedOrder.1 = Some savedOrder.2
  /\ (forall id o, Db.Order db !! id = Some o -> Db.Order db' !! id = Some o)
  /\ keysBelowCounter db'.
Proof.
  intros Hkeys Hsent db'.
  destruct (orders_accepted _ _ _ Hsent) as (Hid & Horders & Hnext & Hshape).
  assert (Hfresh : Db.Order db !! savedOrder.1 = None).
  { destruct (Db.Order db !! savedOrder.1) eqn:Hl; [|done].
    assert (savedOrder.1 < Db.nextId db)%nat by (apply Hkeys; eauto). lia. }
  unfold wellShaped in Hshape.
  destruct (Body.deliveryAddress body) as [a|]; [|done].
  destruct (Body.products body) as [[|??]|]; try done.
  injection Hshape as -> ->.
  repeat split; try done.
  - unfold db'. rewrite Horders. apply lookup_insert_eq.
  - intros id o Hl. unfold db'. rewrite Horders, lookup_insert_ne; [done|].
    intros <-. by rewrite Hfresh in Hl.
  - intros id. unfold db'. rewrite Horders, Hnext.
    intros [<-|[_ Hl]]%lookup_insert_is_Some.
    + lia.
    + pose proof (Hkeys id Hl). lia.
Qed.

End Answers.

(** ** Placements served one after the other *)

Section OneAfterTheOther.

Variable validate : Order.t -> bool.




End OneAfterTheOther.

(** ** updateOrder: refusals, frame, address merge *)

Section UpdateMore.

Variable validate : Order.t -> bool.

Lemma run_updateOrder_missing (id : nat) (body : Body.t) (db : Db.t) :
  Db.Order db !! id = None ->
  run validate (updateOrder (Some id) body) db = (db, [ReadOrder id], inr notFound).
Proof.
  intros Hnone. unfold updateOrder. rewrite run_catch. simpl. by rewrite Hnone.
Qed.


Lemma finalDb_updateOrder (id : option nat) (body : Body.t) (db : Db.t) :
  finalDb (run validate (updateOrder id body) db)
  = match id with
    | Some i =>
        match Db.Order db !! i with
        | Some existingOrder => applyUpdate i (mergeAddress existingOrder body) db
        | None => db
        end
    | None => db
    end.
Proof.
  destruct id as [i|]; [|done].
  destruct (Db.Order db !! i) as [existingOrder|] eqn:Hl.
  - by rewrite (run_updateOrder _ _ _ _ _ Hl).
  - by rewrite (run_updateOrder_missing _ _ _ Hl).
Qed.

(** Whatever the id and the body, [updateOrder] changes no product, creates
    and removes no order, and leaves every order but the one it names as it
    was. *)
Theorem updateOrder_frame (id : option nat) (body : Body.t) (db : Db.t) :
  let db' := finalDb (run validate (updateOrder id body) db) in
  Db.Product db' = Db.Product db
  /\ Db.nextId db' = Db.nextId db
  /\ dom (Db.Order db') = dom (Db.Order db)
  /\ forall other, id <> Some other -> Db.Order db' !! other = Db.Order db !! other.
Proof.
  cbv zeta. rewrite finalDb_updateOrder.
  destruct id as [i|]; [|done].
  destruct (Db.Order db !! i) as [existingOrder|] eqn:Hl; [|done].
  unfold applyUpdate; simpl. repeat split.
  - apply dom_alter_L.
  - intros other Hne. apply lookup_alter_ne. congruence.
Qed.


End UpdateMore.

(** ** getOrderById, getAllOrders, deleteOrder *)

Section Handlers.

Variable createdAt : nat -> Order.t -> Z.
Variable failure : forall X : Type, Call.t X -> Db.t -> option string.

#[local] Instance newerFirst_total : Total (newerFirst createdAt).
Proof. intros a b. unfold newerFirst. lia. Qed.

#[local] Instance newerFirst_trans : Transitive (newerFirst createdAt).
Proof. intros a b c. unfold newerFirst. lia. Qed.

(** The two readers leave the store exactly as it was, whatever the id and
    whichever of their calls is rejected. *)
Theorem readers_never_write (id : option nat) (db : Db.t) :
  finalDbH (runH createdAt failure (getOrderById id) db) = db
  /\ finalDbH (runH createdAt failure getAllOrders db) = db.
Proof.
  split.
  - destruct id as [i|]; [|done]. unfold getOrderById, await; simpl.
    destruct (failure _ _ db); [done|]. simpl.
    by destruct (Db.Order db !! i).
  - unfold getAllOrders, await; simpl. by destruct (failure _ _ db).
Qed.

Lemma runH_getOrderById (id : nat) (db : Db.t) :
  failure _ (Call.FindByIdPopulate id) db = None ->
  runH createdAt failure (getOrderById (Some id)) db
  = (db, [AccessFindByIdPopulate id],
     inr (match Db.Order db !! id with
          | Some o => Reply.mk 200 true "Order retrieved successfully"
                        (Some (id, populate db o)) None
          | None => replyNotFound
          end)).
Proof.
  intros Hok. unfold getOrderById, await; simpl. rewrite Hok. simpl.
  by destruct (Db.Order db !! id).
Qed.

(** A malformed id is answered 400 before any store call; a well-formed id
    that matches no order is answered 404 after the one read. *)
Theorem getOrderById_refusals (id : option nat) (db : Db.t) :
  (forall i, id = Some i ->
     Db.Order db !! i = None /\ failure _ (Call.FindByIdPopulate i) db = None) ->
  runH createdAt failure (getOrderById id) db
  = match id with
    | None => (db, [], inr replyInvalidId)
    | Some i => (db, [AccessFindByIdPopulate i], inr replyNotFound)
    end.
Proof.
  intros Hmissing. destruct id as [i|]; [|done].
  destruct (Hmissing i eq_refl) as [Hnone Hok].
  by rewrite (runH_getOrderById _ _ Hok), Hnone.
Qed.

(** Populating keeps the lines in order with their quantities. *)
Lemma populate_quantities (db : Db.t) (o : Order.t) :
  PopulatedItem.quantity <$> PopulatedOrder.products (populate db o)
  = LineItem.quantity <$> Order.products o.
Proof.
  unfold populate; simpl. rewrite <- list_fmap_compose. done.
Qed.

(** Round trip: the id returned by an accepted placement, given to
    [getOrderById], is answered 200 with the address and the quantities of
    the request, each line populated with its product as the store holds it
    after the placement's decrements. *)
Theorem getOrderById_after_createOrder (validate : Order.t -> bool) (body : Body.t)
    (deliveryAddress : gmap string string) (products : list LineItem.t)
    (db : Db.t) (savedOrder : nat * Order.t) :
  wellShaped body = Some (deliveryAddress, products) ->
  sent (run validate (createOrder body) db) = Some (created savedOrder) ->
  let db' := finalDb (run validate (createOrder body) db) in
  failure _ (Call.FindByIdPopulate savedOrder.1) db' = None ->
  exists populated,
    sentH (runH createdAt failure (getOrderById (Some savedOrder.1)) db')
    = Some (Reply.mk 200 true "Order retrieved successfully"
              (Some (savedOrder.1, populated)) None)
    /\ PopulatedOrder.deliveryAddress populated = deliveryAddress
    /\ PopulatedItem.quantity <$> PopulatedOrder.products populated
       = LineItem.quantity <$> products
    /\ PopulatedItem.productId <$> PopulatedOrder.products populated
       = (fun product =>
            pair (LineItem.productId product)
              <$> Db.Product db' !! LineItem.productId product) <$> products.
Proof.
  intros Hshape Hsent db' Hok.
  destruct (orders_accepted _ _ _ _ Hsent) as (_ & Horders & _ & Hshape').
  rewrite Hshape in Hshape'. injection Hshape' as -> ->.
  exists (populate db' savedOrder.2). subst db'.
  rewrite (runH_getOrderById _ _ Hok), Horders, lookup_insert_eq.
  split; [done|]. split; [done|].
  split; [apply populate_quantities|].
  unfold populate; simpl. by rewrite <- list_fmap_compose.
Qed.

Lemma runH_deleteOrder (id : nat) (db : Db.t) (existingOrder : Order.t) :
  Db.Order db !! id = Some existingOrder ->
  failure _ (Call.FindById id) db = None ->
  failure _ (Call.FindByIdAndRemove id) db = None ->
  runH createdAt failure (deleteOrder (Some id)) db
  = (removeOrder id db, [AccessFindById id; AccessFindByIdAndRemove id],
     inr (Reply.mk 200 true "Order deleted successfully" None None)).
Proof.
  intros Hl Hfind Hremove. unfold deleteOrder, await; simpl.
  rewrite Hfind. simpl. rewrite Hl. simpl. by rewrite Hremove.
Qed.

(** Deleting an existing order removes that order and nothing else: every
    other order stays, and no product quantity changes, so what the order
    took from the stock is not given back. *)
Theorem deleteOrder_removes_only_the_order (id : nat) (db : Db.t)
    (existingOrder : Order.t) :
  Db.Order db !! id = Some existingOrder ->
  failure _ (Call.FindById id) db = None ->
  failure _ (Call.FindByIdAndRemove id) db = None ->
  let r := runH createdAt failure (deleteOrder (Some id)) db in
  (Reply.status <$> sentH r) = Some 200%nat
  /\ Db.Order (finalDbH r) !! id = None
  /\ (forall other, other <> id -> Db.Order (finalDbH r) !! other = Db.Order db !! other)
  /\ Db.Product (finalDbH r) = Db.Product db
  /\ Db.nextId (finalDbH r) = Db.nextId db.
Proof.
  intros Hl Hfind Hremove. cbv zeta. rewrite (runH_deleteOrder _ _ _ Hl Hfind Hremove).
  unfold finalDbH, sentH, removeOrder; simpl. repeat split.
  - apply lookup_delete_eq.
  - intros other Hne. by apply lookup_delete_ne.
Qed.

(** After a successful delete, [getOrderById] on the same id is answered
    404. *)
Theorem getOrderById_after_deleteOrder (id : nat) (db : Db.t) (existingOrder : Order.t) :
  Db.Order db !! id = Some existingOrder ->
  failure _ (Call.FindById id) db = None ->
  failure _ (Call.FindByIdAndRemove id) db = None ->
  let db' := finalDbH (runH createdAt failure (deleteOrder (Some id)) db) in
  failure _ (Call.FindByIdPopulate id) db' = None ->
  sentH (runH createdAt failure (getOrderById (Some id)) db') = Some replyNotFound.
Proof.
  intros Hl Hfind Hremove. cbv zeta. rewrite (runH_deleteOrder _ _ _ Hl Hfind Hremove).
  unfold finalDbH; cbn [fst]. intros Hok. rewrite (runH_getOrderById _ _ Hok).
  unfold sentH, removeOrder; simpl. by rewrite lookup_delete_eq.
Qed.

(** [deleteOrder] always sends a payload, and unless it is the 200 the
    store is left as it was: a malformed id, an unknown id, and a rejected
    read or a rejected removal all keep every order in place. *)
Theorem deleteOrder_writes_only_on_200 (id : option nat) (db : Db.t) :
  exists payload,
    sentH (runH createdAt failure (deleteOrder id) db) = Some payload
    /\ (Reply.status payload = 200%nat
        \/ finalDbH (runH createdAt failure (deleteOrder id) db) = db).
Proof.
  destruct id as [i|]; [|eexists; split; [done|by right]].
  unfold deleteOrder, await; simpl.
  destruct (failure _ (Call.FindById i) db); simpl;
    [eexists; split; [done|by right]|].
  destruct (Db.Order db !! i); simpl; [|eexists; split; [done|by right]].
  destruct (failure _ (Call.FindByIdAndRemove i) db); simpl;
    eexists; (split; [done|]); [by right|by left].
Qed.

(** When the removal itself is rejected after the order was found, the
    answer is the 500 of the [catch] block with the store's error, and the
    order is still there. *)
Theorem deleteOrder_rejected_removal (id : nat) (db : Db.t) (existingOrder : Order.t)
    (e : string) :
  Db.Order db !! id = Some existingOrder ->
  failure _ (Call.FindById id) db = None ->
  failure _ (Call.FindByIdAndRemove id) db = Some e ->
  runH createdAt failure (deleteOrder (Some id)) db
  = (db, [AccessFindById id; AccessFindByIdAndRemove id],
     inr (replyFailed "Failed to delete the order" e)).
Proof.
  intros Hl Hfind Hremove. unfold deleteOrder, await; simpl.
  rewrite Hfind. simpl. rewrite Hl. simpl. by rewrite Hremove.
Qed.

(** [getAllOrders] lists every stored order exactly once, populated, the
    most recently created first, and leaves the store as it was. *)
Theorem getAllOrders_lists_every_order_newest_first (db : Db.t) :
  failure _ Call.Find db = None ->
  exists sorted,
    runH createdAt failure getAllOrders db
    = (db, [AccessFind],
       inr (Reply.mk 200 true "Orders retrieved successfully"
              (Some ((fun o => (o.1, populate db o.2)) <$> sorted)) None))
    /\ (forall id o, (id, o) ∈ sorted <-> Db.Order db !! id = Some o)
    /\ NoDup sorted.*1
    /\ StronglySorted (newerFirst createdAt) sorted.
Proof.
  intros Hok. exists (findSorted createdAt db). split; [|split; [|split]].
  - unfold getAllOrders, await; simpl. by rewrite Hok.
  - intros id o. unfold findSorted. rewrite merge_sort_Permutation.
    apply elem_of_map_to_list.
  - unfold findSorted. rewrite merge_sort_Permutation.
    apply NoDup_fst_map_to_list.
  - apply StronglySorted_merge_sort; apply _.
Qed.

End Handlers.

(** ** Placements in flight: what no interleaving and no rejection breaks *)

Section InFlight.

Variable validationError : Order.t -> option string.

Lemma reads_snoc (read : list LineItem.t) (product : LineItem.t) :
  reads (read ++ [product]) = reads read ++ [ReadProduct (LineItem.productId product)].
Proof. unfold reads. by rewrite fmap_app. Qed.

Lemma incs_snoc (decremented : list LineItem.t) (product : LineItem.t) :
  incs (decremented ++ [product])
  = incs decremented
    ++ [IncProduct (LineItem.productId product) (- LineItem.quantity product)].
Proof. unfold incs. by rewrite fmap_app. Qed.

Lemma incTotal_app (productId : string) (tr tr' : list Event) :
  incTotal productId (tr ++ tr') = incTotal productId tr + incTotal productId tr'.
Proof.
  induction tr as [|ev tr IH]; [done|].
  simpl. rewrite IH. destruct ev; try done. case_decide; lia.
Qed.

Lemma incTotal_reads (productId : string) (products : list LineItem.t) :
  incTotal productId (reads products) = 0.
Proof. induction products as [|product rest IH]; [done|]. simpl. apply IH. Qed.

Lemma incTotal_incs (productId : string) (products : list LineItem.t) :
  incTotal productId (incs products) = - requested productId products.
Proof.
  induction products as [|product rest IH]; [done|].
  simpl. fold (incs rest). rewrite IH. case_decide; lia.
Qed.

Lemma requested_Permutation (productId : string) (products products' : list LineItem.t) :
  products ≡ₚ products' -> requested productId products = requested productId products'.
Proof.
  induction 1 as [|x l l' _ IH|x y l|l l' l'' _ IH1 _ IH2]; simpl.
  - done.
  - by rewrite IH.
  - repeat case_decide; lia.
  - by rewrite IH1.
Qed.

Lemma fmap_plus_zero (o : option Z) : (fun q => q + 0) <$> o = o.
Proof. destruct o; simpl; [f_equal; lia|done]. Qed.

(** A call that settles moves the quantity of a product by what it says
    when it resolves, and by nothing when it is rejected. *)
Lemma land_stock (call : nat) (rejected : option string) (flight flight' : Flight)
    (db db' : Db.t) (ev : list Event) (productId : string) :
  land validationError call rejected flight db = Some (db', ev, flight') ->
  stock db' productId = (fun q => q + incTotal productId ev) <$> stock db productId.
Proof.
  assert (Hinc : forall product,
    stock (applyInc (LineItem.productId product) (- LineItem.quantity product) db) productId
    = (fun q => q + incTotal productId
                     [IncProduct (LineItem.productId product) (- LineItem.quantity product)])
        <$> stock db productId).
  { intros product. rewrite applyInc_stock. simpl.
    case_decide; [|by rewrite fmap_plus_zero].
    destruct (stock db productId); simpl; [f_equal; lia|done]. }
  destruct flight as [a ps pending errs|a ps|saved pending|payload pending|payload pending];
    simpl.
  - destruct (pending !! call), rejected; intros [= <- <- <-]; simpl;
      by rewrite fmap_plus_zero.
  - destruct (validationError _), rejected; intros [= <- <- <-]; simpl;
      by rewrite fmap_plus_zero.
  - destruct (pending !! call), rejected; intros [= <- <- <-];
      [simpl; by rewrite fmap_plus_zero|apply Hinc].
  - destruct (pending !! call), rejected; intros [= <- <- <-];
      [simpl; by rewrite fmap_plus_zero|apply Hinc].
  - destruct (pending !! call), rejected; intros [= <- <- <-]; simpl;
      by rewrite fmap_plus_zero.
Qed.

Lemma moved_insert (productId : string) (flights : list (Flight * list Event))
    (i : nat) (flight flight' : Flight) (tr ev : list Event) :
  flights !! i = Some (flight, tr) ->
  moved productId (<[i := (flight', tr ++ ev)]> flights)
  = moved productId flights + incTotal productId ev.
Proof.
  revert i. induction flights as [|t flights IH]; intros i; [done|].
  destruct i as [|i]; simpl.
  - intros [= ->]. simpl. rewrite incTotal_app. lia.
  - intros Hl. rewrite (IH _ Hl). lia.
Qed.

Lemma serve_stock (turn : Turn.t) (cfg : Db.t * list (Flight * list Event))
    (productId : string) :
  stock (serve validationError turn cfg).1 productId
  = (fun q => q + (moved productId (serve validationError turn cfg).2
                   - moved productId cfg.2))
      <$> stock cfg.1 productId.
Proof.
  unfold serve. destruct (cfg.2 !! Turn.request turn) as [[flight tr]|] eqn:Hl.
  - destruct (land _ _ _ flight cfg.1) as [[[db' ev] flight']|] eqn:Hland; simpl.
    + rewrite (land_stock _ _ _ _ _ _ _ _ Hland), (moved_insert _ _ _ _ _ _ _ Hl).
      destruct (stock cfg.1 productId); simpl; [f_equal; lia|done].
    + rewrite Z.sub_diag. by rewrite fmap_plus_zero.
  - rewrite Z.sub_diag. by rewrite fmap_plus_zero.
Qed.

Lemma fly_cons (turn : Turn.t) (turns : list Turn.t)
    (cfg : Db.t * list (Flight * list Event)) :
  fly validationError (turn :: turns) cfg
  = fly validationError turns (serve validationError turn cfg).
Proof. done. Qed.

(** Under every interleaving, a product holds what it held plus what the
    resolved calls of the placements added to it. *)
Lemma fly_stock (turns : list Turn.t) (cfg : Db.t * list (Flight * list Event))
    (productId : string) :
  stock (fly validationError turns cfg).1 productId
  = (fun q => q + (moved productId (fly validationError turns cfg).2
                   - moved productId cfg.2))
      <$> stock cfg.1 productId.
Proof.
  revert cfg. induction turns as [|turn turns IH]; intros cfg.
  - simpl. rewrite Z.sub_diag. by rewrite fmap_plus_zero.
  - rewrite fly_cons, IH, serve_stock.
    destruct (stock cfg.1 productId); simpl; [f_equal; lia|done].
Qed.

Lemma onCourse_checksSettled (deliveryAddress : gmap string string)
    (products pending : list LineItem.t) (errorMessages : list string) (read : list LineItem.t) :
  onCourse (checksSettled deliveryAddress products pending errorMessages, reads read).
Proof.
  unfold checksSettled. destruct pending; [|by exists read].
  destruct (0 <? length errorMessages)%nat; [|by exists read].
  left. repeat split; [done|]. by exists read.
Qed.

Lemma onCourse_updatesSettled (savedOrder : nat * Order.t)
    (pending read decremented : list LineItem.t) :
  decremented ++ pending ≡ₚ Order.products savedOrder.2 ->
  onCourse (updatesSettled savedOrder pending,
            reads read ++ InsertOrder savedOrder.1 savedOrder.2 :: incs decremented).
Proof.
  intros Hperm. unfold updatesSettled. destruct pending.
  - right. left. exists savedOrder, read, decremented.
    rewrite app_nil_r in Hperm. done.
  - by exists read, decremented.
Qed.

Lemma onCourse_takeOff (body : Body.t) : onCourse (takeOff body, []).
Proof.
  unfold takeOff. destruct (wellShaped body) as [[deliveryAddress products]|].
  - apply (onCourse_checksSettled _ _ _ _ []).
  - left. repeat split; [done|]. by exists [].
Qed.

Lemma decrement_settled (decremented pending products : list LineItem.t)
    (call : nat) (product : LineItem.t) :
  pending !! call = Some product ->
  (decremented ++ [product]) ++ delete call pending ≡ₚ decremented ++ pending.
Proof.
  intros Hl. rewrite <- app_assoc. simpl.
  by rewrite <- (delete_Permutation pending call product Hl).
Qed.

(** A placement stays on course when one of its calls settles. *)
Lemma onCourse_land (call : nat) (rejected : option string) (flight flight' : Flight)
    (tr ev : list Event) (db db' : Db.t) :
  onCourse (flight, tr) ->
  land validationError call rejected flight db = Some (db', ev, flight') ->
  onCourse (flight', tr ++ ev).
Proof.
  destruct flight as [a ps pending errs|a ps|saved pending|payload pending|payload pending];
    unfold onCourse at 1; cbn [fst snd land].
  - intros [read ->].
    destruct (pending !! call) as [product|], rejected as [e|]; intros [= <- <- <-].
    + split; [done|]. split; [done|]. exists read. by rewrite app_nil_r.
    + rewrite <- reads_snoc. apply onCourse_checksSettled.
  - intros [read ->].
    destruct (validationError _) as [e|], rejected as [e'|]; intros [= <- <- <-];
      try (left; repeat split; [done|]; exists read; by rewrite app_nil_r).
    apply (onCourse_updatesSettled (Db.nextId db, Order.mk a ps) ps read []). done.
  - intros (read & decremented & -> & Hperm).
    destruct (pending !! call) as [product|] eqn:Hl, rejected as [e|];
      intros [= <- <- <-].
    + right. right. exists saved.1, saved.2, read, decremented.
      rewrite app_nil_r. split; [done|]. split; [done|]. rewrite <- Hperm.
      apply submseteq_app; [done|]. apply submseteq_delete.
    + replace ((reads read ++ InsertOrder saved.1 saved.2 :: incs decremented)
                 ++ [IncProduct (LineItem.productId product) (- LineItem.quantity product)])
        with (reads read ++ InsertOrder saved.1 saved.2 :: incs (decremented ++ [product]))
        by (by rewrite incs_snoc, <- app_assoc).
      apply onCourse_updatesSettled.
      by rewrite (decrement_settled _ _ (Order.products saved.2) _ _ Hl).
  - intros [(_ & _ & -> & _)|[(saved & read & decremented & _ & -> & _)
                             |(id & doc & read & decremented & Hst & -> & Hsub)]];
      [done|done|].
    destruct (pending !! call) as [product|] eqn:Hl, rejected as [e|];
      intros [= <- <- <-].
    + right. right. exists id, doc, read, decremented.
      rewrite app_nil_r. split; [done|]. split; [done|]. etrans; [|exact Hsub].
      apply submseteq_app; [done|]. apply submseteq_delete.
    + right. right. exists id, doc, read, (decremented ++ [product]).
      split; [done|]. split; [by rewrite incs_snoc, <- app_assoc|].
      by rewrite (decrement_settled _ _ (Order.products doc) _ _ Hl).
  - intros (Hdata & Hst & read & ->).
    destruct (pending !! call) as [product|], rejected as [e|]; intros [= <- <- <-].
    + split; [done|]. split; [done|]. exists read. by rewrite app_nil_r.
    + split; [done|]. split; [done|]. exists (read ++ [product]). by rewrite reads_snoc.
Qed.

Lemma onCourse_serve (turn : Turn.t) (cfg : Db.t * list (Flight * list Event)) :
  Forall onCourse cfg.2 -> Forall onCourse (serve validationError turn cfg).2.
Proof.
  intros Hall. unfold serve.
  destruct (cfg.2 !! Turn.request turn) as [[flight tr]|] eqn:Hl; [|done].
  destruct (land _ _ _ flight cfg.1) as [[[db' ev] flight']|] eqn:Hland; [|done].
  simpl. apply Forall_insert; [done|].
  eapply onCourse_land; [|exact Hland].
  by apply (Forall_lookup_1 _ _ _ _ Hall Hl).
Qed.

Lemma onCourse_fly (turns : list Turn.t) (bodies : list Body.t) (db : Db.t) :
  Forall onCourse (fly validationError turns (db, takeOffAll bodies)).2.
Proof.
  assert (Hstart : Forall onCourse (db, takeOffAll bodies).2).
  { simpl. unfold takeOffAll. apply Forall_fmap, Forall_forall.
    intros body _. apply onCourse_takeOff. }
  revert Hstart. generalize (db, takeOffAll bodies).
  induction turns as [|turn turns IH]; intros cfg Hall; [done|].
  rewrite fly_cons. by apply IH, onCourse_serve.
Qed.

Lemma moved_takeOffAll (productId : string) (bodies : list Body.t) :
  moved productId (takeOffAll bodies) = 0.
Proof.
  unfold takeOffAll. induction bodies as [|body bodies IH]; [done|].
  simpl. unfold fmap in IH. lia.
Qed.

(** A placement that has answered 400 or 201 and has nothing pending took
    from a product what its saved order asks of it, and nothing when no
    order was saved. *)
Lemma onCourse_landed (t : Flight * list Event) (payload : Response) (productId : string) :
  onCourse t -> landed t = Some payload -> status payload <> 500%nat ->
  incTotal productId t.2 = - ordered productId [Some payload].
Proof.
  destruct t as [flight tr]. unfold onCourse, landed; simpl.
  destruct flight as [| | |payload' pending|payload' pending]; try done;
    (destruct pending; [|done]); intros Hcourse [= ->] Hne; [|by destruct Hcourse as (_ & ? & _)].
  destruct Hcourse as [(Hdata & _ & _ & read & ->)
                      |[(saved & read & decremented & -> & _ & -> & Hperm)
                       |(id & doc & read & decremented & Hst & _)]]; [| |done].
  - rewrite Hdata, incTotal_reads. lia.
  - rewrite incTotal_app, incTotal_reads. simpl. rewrite incTotal_incs.
    rewrite (requested_Permutation _ _ _ Hperm). lia.
Qed.

Lemma moved_landed (flights : list (Flight * list Event)) (productId : string) :
  Forall onCourse flights ->
  Forall (fun t => exists payload, landed t = Some payload /\ status payload <> 500%nat)
         flights ->
  moved productId flights = - ordered productId (landed <$> flights).
Proof.
  induction flights as [|t flights IH]; [done|].
  intros [Hcourse Hrest]%Forall_cons [(payload & Hlanded & Hne) Hrest']%Forall_cons.
  specialize (IH Hrest Hrest'). simpl.
  rewrite (onCourse_landed _ _ productId Hcourse Hlanded Hne), IH, Hlanded. simpl.
  unfold fmap. destruct (data payload); lia.
Qed.

(** No decrement is lost or doubled: whichever way the calls of any number
    of placements in flight together settle, once every placement has
    answered 201 or 400 and no call is pending, every product holds what it
    held at the start minus what the accepted placements ordered of it. *)
Theorem placements_in_flight_accounting (bodies : list Body.t) (turns : list Turn.t)
    (db : Db.t) (productId : string) :
  let cfg := fly validationError turns (db, takeOffAll bodies) in
  Forall (fun t => exists payload, landed t = Some payload /\ status payload <> 500%nat)
         cfg.2 ->
  stock cfg.1 productId
  = (fun q => q - ordered productId (landed <$> cfg.2)) <$> stock db productId.
Proof.
  cbv zeta. intros Hlanded.
  rewrite fly_stock, (moved_landed _ _ (onCourse_fly turns bodies db) Hlanded).
  simpl. rewrite moved_takeOffAll.
  destruct (stock db productId); simpl; [f_equal; lia|done].
Qed.

(** Whichever way the calls settle, a placement that was answered 400 has
    no call pending and the only calls of its own that resolved were product
    reads. *)
Theorem refused_placement_only_read (bodies : list Body.t) (turns : list Turn.t)
    (db : Db.t) (i : nat) (flight : Flight) (payload : Response) (tr : list Event) :
  (fly validationError turns (db, takeOffAll bodies)).2 !! i = Some (flight, tr) ->
  answer flight = Some payload ->
  status payload = 400%nat ->
  landed (flight, tr) = Some payload /\ exists read, tr = reads read.
Proof.
  intros Hl Hanswer Hst.
  pose proof (Forall_lookup_1 _ _ _ _ (onCourse_fly turns bodies db) Hl) as Hcourse.
  unfold onCourse in Hcourse; simpl in Hcourse.
  destruct flight as [| | |payload' pending|payload' pending]; try done;
    injection Hanswer as ->.
  - destruct Hcourse as [(_ & _ & -> & Hread)
                        |[(saved & read & decremented & -> & _)
                         |(id & doc & read & decremented & Hst' & _)]].
    + done.
    + done.
    + congruence.
  - destruct Hcourse as (_ & Hst' & _). congruence.
Qed.

(** Whichever way the calls settle and whichever are rejected, the calls of
    a placement that resolved are product reads, then possibly the write of
    its order followed by decrements of lines of that order, each line at
    most once: no stock is taken before the order is written, and none for
    a line the order does not hold. *)
Theorem stock_taken_only_after_order_written (bodies : list Body.t) (turns : list Turn.t)
    (db : Db.t) (i : nat) (flight : Flight) (tr : list Event) :
  (fly validationError turns (db, takeOffAll bodies)).2 !! i = Some (flight, tr) ->
  Progress tr.
Proof.
  intros Hl.
  pose proof (Forall_lookup_1 _ _ _ _ (onCourse_fly turns bodies db) Hl) as Hcourse.
  unfold onCourse in Hcourse; simpl in Hcourse.
  destruct flight as [a ps pending errs|a ps|saved pending|payload pending|payload pending].
  - destruct Hcourse as [read ->]. constructor.
  - destruct Hcourse as [read ->]. constructor.
  - destruct Hcourse as (read & decremented & -> & Hperm). constructor.
    rewrite <- Hperm. by apply submseteq_inserts_r.
  - destruct Hcourse as [(_ & _ & _ & read & ->)
                        |[(saved & read & decremented & _ & _ & -> & Hperm)
                         |(id & doc & read & decremented & _ & -> & Hsub)]].
    + constructor.
    + constructor. by rewrite Hperm.
    + constructor. etrans; [|exact Hsub]. by apply submseteq_inserts_r.
  - destruct Hcourse as (_ & _ & read & ->). constructor.
Qed.

(** Whichever way the calls settle, a placement that was answered 201 has
    written its order and then decremented every line of it exactly once,
    and has no call pending. *)
Theorem accepted_placement_decremented_every_line (bodies : list Body.t)
    (turns : list Turn.t) (db : Db.t) (i : nat) (flight : Flight)
    (savedOrder : nat * Order.t) (tr : list Event) :
  (fly validationError turns (db, takeOffAll bodies)).2 !! i = Some (flight, tr) ->
  answer flight = Some (created savedOrder) ->
  landed (flight, tr) = Some (created savedOrder)
  /\ exists read decremented,
       tr = reads read ++ InsertOrder savedOrder.1 savedOrder.2 :: incs decremented
       /\ decremented ≡ₚ Order.products savedOrder.2.
Proof.
  intros Hl Hanswer.
  pose proof (Forall_lookup_1 _ _ _ _ (onCourse_fly turns bodies db) Hl) as Hcourse.
  unfold onCourse in Hcourse; simpl in Hcourse.
  destruct flight as [| | |payload pending|payload pending]; try done;
    injection Hanswer as ->.
  - destruct Hcourse as [(Hdata & _)
                        |[(saved & read & decremented & [= <-] & -> & -> & Hperm)
                         |(id & doc & read & decremented & Hst & _)]]; [done| |done].
    split; [done|]. by exists read, decremented.
  - by destruct Hcourse as (Hdata & _).
Qed.

End InFlight.

(** ** One placement served alone: the order of its calls does not matter *)

Section Alone.

Variable validationError : Order.t -> option string.

Lemma length_filter_Permutation (f : LineItem.t -> bool) (l l' : list LineItem.t) :
  l ≡ₚ l' -> length (List.filter f l) = length (List.filter f l').
Proof.
  induction 1 as [|x l l' _ IH|x y l|l l' l'' _ IH1 _ IH2]; simpl.
  - done.
  - destruct (f x); simpl; by rewrite IH.
  - by destruct (f x), (f y).
  - by rewrite IH1.
Qed.

Lemma messages_replicate (l : list LineItem.t) :
  (fun _ => notEnough) <$> l = replicate (length l) notEnough.
Proof. induction l as [|x l IH]; [done|]. simpl. by f_equal. Qed.

Lemma messages_Permutation (f : LineItem.t -> bool) (l l' : list LineItem.t) :
  l ≡ₚ l' ->
  (fun _ => notEnough) <$> List.filter f l = (fun _ => notEnough) <$> List.filter f l'.
Proof.
  intros Hperm. by rewrite !messages_replicate, (length_filter_Permutation f _ _ Hperm).
Qed.

(** A pending decrement may resolve before the others: the store they lead
    to together is the same. *)
Lemma applyUpdates_delete (pending : list LineItem.t) (call : nat) (product : LineItem.t)
    (db : Db.t) :
  pending !! call = Some product ->
  applyUpdates (delete call pending)
    (applyInc (LineItem.productId product) (- LineItem.quantity product) db)
  = applyUpdates pending db.
Proof.
  revert call db. induction pending as [|other pending IH]; intros call db; [done|].
  destruct call as [|call]; simpl.
  - by intros [= ->].
  - intros Hl. unfold applyUpdates; simpl. rewrite applyInc_commute.
    apply (IH call _ Hl).
Qed.

Lemma alone_takeOff (body : Body.t) (db : Db.t) :
  alone validationError body db db (takeOff body) [].
Proof.
  unfold takeOff.
  destruct (wellShaped body) as [[deliveryAddress products]|] eqn:Hshape; simpl.
  - unfold checksSettled. destruct products as [|product products].
    + exfalso. unfold wellShaped in Hshape.
      destruct (Body.deliveryAddress body); [|done].
      by destruct (Body.products body) as [[|??]|].
    + split; [done|]. split; [done|]. by exists [].
  - unfold expected. by rewrite Hshape.
Qed.

Lemma alone_land (body : Body.t) (db0 db db' : Db.t) (call : nat)
    (flight flight' : Flight) (tr ev : list Event) :
  alone validationError body db0 db flight tr ->
  land validationError call None flight db = Some (db', ev, flight') ->
  alone validationError body db0 db' flight' (tr ++ ev).
Proof.
  destruct flight as [a ps pending errs|a ps|saved pending|payload pending|payload pending];
    simpl; [| | | |done].
  - intros (Hshape & -> & read & -> & Hperm & ->).
    destruct (pending !! call) as [product|] eqn:Hl; intros [= <- <- <-].
    assert (Hperm' : (read ++ [product]) ++ delete call pending ≡ₚ ps).
    { by rewrite (decrement_settled _ _ ps _ _ Hl). }
    assert (Herrs : (if short db0 product
                     then ((fun _ => notEnough) <$> List.filter (short db0) read)
                          ++ [notEnough]
                     else (fun _ => notEnough) <$> List.filter (short db0) read)
                    = (fun _ => notEnough) <$> List.filter (short db0) (read ++ [product])).
    { rewrite List.filter_app. simpl.
      destruct (short db0 product); [by rewrite fmap_app|by rewrite app_nil_r]. }
    rewrite Herrs, <- reads_snoc. unfold checksSettled.
    destruct (delete call pending) as [|next rest].
    + rewrite app_nil_r in Hperm'.
      rewrite (messages_Permutation _ _ _ Hperm').
      destruct (List.filter (short db0) ps) as [|s ss] eqn:Hf; simpl.
      * split; [done|]. split; [done|]. split; [done|]. by exists (read ++ [product]).
      * unfold expected. rewrite Hshape, Hf. simpl.
        split; [done|]. split; [done|]. split; [|done].
        unfold reads. by apply fmap_Permutation.
    + simpl. split; [done|]. split; [done|]. by exists (read ++ [product]).
  - intros (Hshape & -> & Hf & read & -> & Hperm).
    destruct (validationError (Order.mk a ps)) as [e|] eqn:Hv; intros [= <- <- <-].
    + simpl. unfold expected. rewrite Hshape, Hf. simpl. rewrite Hv. simpl.
      split; [done|]. split; [done|]. split; [|done].
      rewrite app_nil_r. unfold reads. by apply fmap_Permutation.
    + unfold updatesSettled. destruct ps as [|product ps]; simpl.
      * unfold expected. rewrite Hshape. simpl. rewrite Hv. simpl.
        apply Permutation_nil_r in Hperm. subst read. done.
      * exists a, (product :: ps). split; [done|]. split; [done|]. split; [done|].
        split; [done|]. split; [|done]. by exists read, [].
  - intros (a & ps & Hshape & -> & Hf & Hv & (read & decremented & -> & Hread & Hperm) & Hdb).
    destruct (pending !! call) as [product|] eqn:Hl; intros [= <- <- <-].
    assert (Hperm' : (decremented ++ [product]) ++ delete call pending ≡ₚ ps).
    { by rewrite (decrement_settled _ _ ps _ _ Hl). }
    rewrite <- (applyUpdates_delete _ _ _ _ Hl) in Hdb.
    replace ((reads read ++ InsertOrder (Db.nextId db0, Order.mk a ps).1
                              (Db.nextId db0, Order.mk a ps).2 :: incs decremented)
               ++ [IncProduct (LineItem.productId product) (- LineItem.quantity product)])
      with (reads read ++ InsertOrder (Db.nextId db0) (Order.mk a ps)
              :: incs (decremented ++ [product]))
      by (by rewrite incs_snoc, <- app_assoc).
    unfold updatesSettled. destruct (delete call pending) as [|next rest].
    + rewrite app_nil_r in Hperm'. simpl in Hdb. simpl.
      unfold expected. rewrite Hshape, Hf. simpl. rewrite Hv. simpl.
      split; [done|]. split; [done|]. split; [|done].
      apply Permutation_app; [unfold reads; by apply fmap_Permutation|].
      constructor. unfold incs. by apply fmap_Permutation.
    + exists a, ps. split; [done|]. split; [done|]. split; [done|]. split; [done|].
      split; [|done]. by exists read, (decremented ++ [product]).
  - intros (-> & _). done.
Qed.

Lemma alone_fly (body : Body.t) (db0 : Db.t) (turns : list Turn.t) :
  noneRejected turns ->
  exists flight tr,
    (fly validationError turns (db0, takeOffAll [body])).2 = [(flight, tr)]
    /\ alone validationError body db0
         (fly validationError turns (db0, takeOffAll [body])).1 flight tr.
Proof.
  intros Hnone.
  assert (Hstart : exists flight tr,
            (db0, takeOffAll [body]).2 = [(flight, tr)]
            /\ alone validationError body db0 (db0, takeOffAll [body]).1 flight tr).
  { exists (takeOff body), []. split; [done|]. apply alone_takeOff. }
  revert Hstart. generalize (db0, takeOffAll [body]).
  induction Hnone as [|turn turns Hturn _ IH]; intros cfg Hcfg; [done|].
  rewrite fly_cons. apply IH.
  destruct Hcfg as (flight & tr & Hthreads & Halone). unfold serve. rewrite Hthreads.
  destruct (Turn.request turn) as [|n]; simpl; [|by exists flight, tr].
  rewrite Hturn.
  destruct (land validationError (Turn.call turn) None flight cfg.1)
    as [[[db' ev] flight']|] eqn:Hland; simpl.
  - exists flight', (tr ++ ev). split; [done|].
    by eapply alone_land.
  - by exists flight, tr.
Qed.


Lemma fly_app (turns turns' : list Turn.t) (cfg : Db.t * list (Flight * list Event)) :
  fly validationError (turns ++ turns') cfg
  = fly validationError turns' (fly validationError turns cfg).
Proof. apply foldl_app. Qed.


(** One placement served alone whose reads have all resolved and found
    enough, in whichever order: when [save] fails, the schema refusing the
    document or the store rejecting the call, with whatever message, the
    answer is the 500 of the catch block carrying that message, the store is
    the one the placement met, and the placement made no call but its
    reads. *)
Theorem save_failure_answers_500 (body : Body.t) (db0 : Db.t) (turns : list Turn.t)
    (deliveryAddress : gmap string string) (products : list LineItem.t) (tr : list Event)
    (call : nat) (rejected : option string) (e : string) :
  noneRejected turns ->
  (fly validationError turns (db0, takeOffAll [body])).2
    = [(Saving deliveryAddress products, tr)] ->
  validationError (Order.mk deliveryAddress products) = Some e
  \/ (validationError (Order.mk deliveryAddress products) = None /\ rejected = Some e) ->
  fly validationError (turns ++ [Turn.mk 0 call rejected]) (db0, takeOffAll [body])
    = (db0, [(Answered (createFailed e) [], tr)])
  /\ exists read, tr = reads read /\ read ≡ₚ products.
Proof.
  intros Hnone Hfly Hfails.
  destruct (alone_fly body db0 turns Hnone) as (flight & tr' & Hthreads & Halone).
  rewrite fly_app.
  destruct (fly validationError turns (db0, takeOffAll [body])) as [db1 flights].
  simpl in Hfly, Hthreads, Halone. subst flights. injection Hthreads as <- <-.
  destruct Halone as (_ & -> & _ & read & -> & Hperm).
  split; [|by exists read].
  simpl. unfold serve. simpl.
  destruct Hfails as [->|[-> ->]]; simpl; by rewrite app_nil_r.
Qed.




End Alone.

(** ** The two readings of createOrder agree *)

Section Agreement.

Variable validate : Order.t -> bool.

Lemma expected_run (body : Body.t) (db : Db.t) :
  run validate (createOrder body) db
  = ((expected (schemaError validate) body db).1.1,
     (expected (schemaError validate) body db).1.2,
     inr (expected (schemaError validate) body db).2).
Proof.
  unfold expected. destruct (wellShaped body) as [[a ps]|] eqn:Hshape.
  - rewrite (run_createOrder validate body a ps db Hshape).
    destruct (List.filter (short db) ps) as [|s ss]; [|done].
    unfold schemaError. cbv zeta. by destruct (validate (Order.mk a ps)).
  - by rewrite (createOrder_illShaped body Hshape).
Qed.

(** One placement served alone, none of its store calls rejected: in
    whichever order its reads and its decrements resolve, the store it
    leaves and the payload it sends are those of the calls resolving in the
    order of the lines, and the calls made are the same ones. *)
Theorem settling_order_does_not_matter (body : Body.t) (db0 db : Db.t)
    (turns : list Turn.t) (flight : Flight) (payload : Response) (tr : list Event) :
  noneRejected turns ->
  fly (schemaError validate) turns (db0, takeOffAll [body]) = (db, [(flight, tr)]) ->
  answer flight = Some payload ->
  landed (flight, tr) = Some payload
  /\ db = finalDb (run validate (createOrder body) db0)
  /\ sent (run validate (createOrder body) db0) = Some payload
  /\ tr ≡ₚ trace (run validate (createOrder body) db0).
Proof.
  intros Hnone Hfly Hanswer.
  destruct (alone_fly (schemaError validate) body db0 turns Hnone)
    as (flight' & tr' & Hthreads & Halone).
  rewrite Hfly in Hthreads, Halone. injection Hthreads as <- <-.
  destruct flight as [| | |payload' pending|]; try done. injection Hanswer as ->.
  destruct Halone as (-> & Hdb & Htr & ->). simpl in Hdb.
  rewrite expected_run. unfold finalDb, sent, trace. simpl. done.
Qed.

End Agreement.

(** ** The further properties on concrete stores *)

Lemma keysBelowCounter_oneOrder : keysBelowCounter oneOrder.
Proof.
  intros id [o Ho]. unfold oneOrder in *; simpl in *.
  apply lookup_singleton_Some in Ho as [<- _]. lia.
Qed.

(** A placement on a store that already holds order 0. *)
Lemma accepted_order_is_stored_witness :
  let body := order [("A", 3)] in
  let doc := Order.mk address1 [LineItem.mk "A" 3] in
  let db' := finalDb (run noValidators (createOrder body) oneOrder) in
  Body.deliveryAddress body = Some address1
  /\ Body.products body = Some [LineItem.mk "A" 3]
  /\ Db.Order oneOrder !! 1%nat = None
  /\ Db.Order db' !! 1%nat = Some doc
  /\ (forall id o, Db.Order oneOrder !! id = Some o -> Db.Order db' !! id = Some o)
  /\ keysBelowCounter db'.
Proof.
  apply (accepted_order_is_stored noValidators (order [("A", 3)]) oneOrder
           (1%nat, Order.mk address1 [LineItem.mk "A" 3])).
  - exact keysBelowCounter_oneOrder.
  - vm_compute. reflexivity.
Defined.





(** ** Placements in flight, on concrete stores *)

(** Two buyers of three, five in stock, both reads before either save: both
    are accepted and the accounting gives minus one. *)
Lemma placements_in_flight_accounting_witness :
  stock (fly (schemaError noValidators) readsFirst
           (inventory [("A", 5)], takeOffAll twoBuyers)).1 "A"
  = (fun q => q - ordered "A"
                   (landed <$> (fly (schemaError noValidators) readsFirst
                                  (inventory [("A", 5)], takeOffAll twoBuyers)).2))
      <$> stock (inventory [("A", 5)]) "A"
  /\ stock (fly (schemaError noValidators) readsFirst
              (inventory [("A", 5)], takeOffAll twoBuyers)).1 "A" = Some (-1).
Proof.
  split; [|vm_compute; reflexivity].
  apply (placements_in_flight_accounting (schemaError noValidators) twoBuyers readsFirst
           (inventory [("A", 5)]) "A").
  vm_compute. repeat constructor; eexists; (split; [reflexivity|discriminate]).
Defined.

(** The second buyer, refused after the first was served: one read. *)
Lemma refused_placement_only_read_witness :
  landed (Answered (insufficientQuantity [notEnough]) [], [ReadProduct "A"])
  = Some (insufficientQuantity [notEnough])
  /\ exists read, [ReadProduct "A"] = reads read.
Proof.
  apply (refused_placement_only_read (schemaError noValidators) twoBuyers oneThenOther
           (inventory [("A", 5)]) 1%nat (Answered (insufficientQuantity [notEnough]) [])
           (insufficientQuantity [notEnough]) [ReadProduct "A"]).
  - vm_compute. reflexivity.
  - reflexivity.
  - reflexivity.
Defined.

(** The first buyer: a read, the order, the decrement. *)
Lemma stock_taken_only_after_order_written_witness :
  Progress [ReadProduct "A"; InsertOrder 0 (Order.mk address1 [LineItem.mk "A" 3]);
            IncProduct "A" (-3)].
Proof.
  apply (stock_taken_only_after_order_written (schemaError noValidators) twoBuyers
           oneThenOther (inventory [("A", 5)]) 0%nat
           (Answered (created (0%nat, Order.mk address1 [LineItem.mk "A" 3])) [])).
  vm_compute. reflexivity.
Defined.

(** Two lines, the second served first: both decremented once. *)
Lemma accepted_placement_decremented_every_line_witness :
  landed (Answered (created (0%nat, Order.mk address1 [LineItem.mk "A" 2; LineItem.mk "B" 1]))
            [],
          [ReadProduct "B"; ReadProduct "A";
           InsertOrder 0 (Order.mk address1 [LineItem.mk "A" 2; LineItem.mk "B" 1]);
           IncProduct "B" (-1); IncProduct "A" (-2)])
  = Some (created (0%nat, Order.mk address1 [LineItem.mk "A" 2; LineItem.mk "B" 1]))
  /\ exists read decremented,
       [ReadProduct "B"; ReadProduct "A";
        InsertOrder 0 (Order.mk address1 [LineItem.mk "A" 2; LineItem.mk "B" 1]);
        IncProduct "B" (-1); IncProduct "A" (-2)]
       = reads read
           ++ InsertOrder 0 (Order.mk address1 [LineItem.mk "A" 2; LineItem.mk "B" 1])
           :: incs decremented
       /\ decremented ≡ₚ [LineItem.mk "A" 2; LineItem.mk "B" 1].
Proof.
  apply (accepted_placement_decremented_every_line (schemaError noValidators) [aAndB]
           lastLineFirst fiveAndOne 0%nat
           (Answered (created (0%nat, Order.mk address1 [LineItem.mk "A" 2; LineItem.mk "B" 1]))
              [])
           (0%nat, Order.mk address1 [LineItem.mk "A" 2; LineItem.mk "B" 1])).
  - vm_compute. reflexivity.
  - reflexivity.
Defined.

Lemma noneRejected_lastLineFirst : noneRejected lastLineFirst.
Proof. by repeat constructor. Qed.


(** The store rejects the save of a placement whose read found enough. *)
Lemma save_failure_answers_500_witness :
  fly (schemaError noValidators) ([first] ++ [Turn.mk 0 0 (Some "connection lost")])
    (inventory [("A", 5)], takeOffAll [order [("A", 3)]])
  = (inventory [("A", 5)], [(Answered (createFailed "connection lost") [], [ReadProduct "A"])])
  /\ exists read, [ReadProduct "A"] = reads read /\ read ≡ₚ [LineItem.mk "A" 3].
Proof.
  apply (save_failure_answers_500 (schemaError noValidators) (order [("A", 3)])
           (inventory [("A", 5)]) [first] address1 [LineItem.mk "A" 3] [ReadProduct "A"]
           0%nat (Some "connection lost") "connection lost").
  - by repeat constructor.
  - vm_compute. reflexivity.
  - right. split; reflexivity.
Defined.

(** The second line served first comes to the store and the payload of the
    lines served in order. *)
Lemma settling_order_does_not_matter_witness :
  landed (Answered (created (0%nat, Order.mk address1 [LineItem.mk "A" 2; LineItem.mk "B" 1]))
            [],
          [ReadProduct "B"; ReadProduct "A";
           InsertOrder 0 (Order.mk address1 [LineItem.mk "A" 2; LineItem.mk "B" 1]);
           IncProduct "B" (-1); IncProduct "A" (-2)])
  = Some (created (0%nat, Order.mk address1 [LineItem.mk "A" 2; LineItem.mk "B" 1]))
  /\ (fly (schemaError noValidators) lastLineFirst (fiveAndOne, takeOffAll [aAndB])).1
     = finalDb (run noValidators (createOrder aAndB) fiveAndOne)
  /\ sent (run noValidators (createOrder aAndB) fiveAndOne)
     = Some (created (0%nat, Order.mk address1 [LineItem.mk "A" 2; LineItem.mk "B" 1]))
  /\ [ReadProduct "B"; ReadProduct "A";
      InsertOrder 0 (Order.mk address1 [LineItem.mk "A" 2; LineItem.mk "B" 1]);
      IncProduct "B" (-1); IncProduct "A" (-2)]
     ≡ₚ trace (run noValidators (createOrder aAndB) fiveAndOne).
Proof.
  apply (settling_order_does_not_matter noValidators aAndB fiveAndOne
           (fly (schemaError noValidators) lastLineFirst (fiveAndOne, takeOffAll [aAndB])).1
           lastLineFirst
           (Answered (created (0%nat, Order.mk address1 [LineItem.mk "A" 2; LineItem.mk "B" 1]))
              [])
           (created (0%nat, Order.mk address1 [LineItem.mk "A" 2; LineItem.mk "B" 1]))
           [ReadProduct "B"; ReadProduct "A";
            InsertOrder 0 (Order.mk address1 [LineItem.mk "A" 2; LineItem.mk "B" 1]);
            IncProduct "B" (-1); IncProduct "A" (-2)]).
  - exact noneRejected_lastLineFirst.
  - vm_compute. reflexivity.
  - reflexivity.
Defined.

(** A rejected read is answered at once by the catch block; the store is as
    it was, and the read of the other line, already issued, still
    resolves. *)
Theorem rejected_read_answers_500 :
  fly (schemaError noValidators) [Turn.mk 0 1 (Some "connection lost")]
    (fiveAndOne, takeOffAll [aAndB])
  = (fiveAndOne, [(AnsweredChecking (createFailed "connection lost") [LineItem.mk "A" 2], [])])
  /\ fly (schemaError noValidators) [Turn.mk 0 1 (Some "connection lost"); first]
       (fiveAndOne, takeOffAll [aAndB])
     = (fiveAndOne, [(AnsweredChecking (createFailed "connection lost") [],
                      [ReadProduct "A"])]).
Proof. split; vm_compute; reflexivity. Qed.

(** A 500 does not mean nothing happened: when the decrement of the first
    line is rejected after the order was saved, the answer is the 500 of the
    catch block, yet the order stays stored, the first line keeps its stock
    and the second line, whose decrement was already issued, loses its
    own. *)
Theorem rejected_decrement_leaves_order_stored :
  landed <$> (fly (schemaError noValidators) lostDecrement (fiveAndOne, takeOffAll [aAndB])).2
  = [Some (createFailed "connection lost")]
  /\ Db.Order (fly (schemaError noValidators) lostDecrement
                 (fiveAndOne, takeOffAll [aAndB])).1 !! 0%nat
     = Some (Order.mk address1 [LineItem.mk "A" 2; LineItem.mk "B" 1])
  /\ stock (fly (schemaError noValidators) lostDecrement
              (fiveAndOne, takeOffAll [aAndB])).1 "A" = Some 5
  /\ stock (fly (schemaError noValidators) lostDecrement
              (fiveAndOne, takeOffAll [aAndB])).1 "B" = Some 0.
Proof. vm_compute. repeat split; reflexivity. Qed.

(** [getOrderById] on an id that matches no order. *)
Lemma getOrderById_refusals_witness :
  runH byKey reachable (getOrderById (Some 7%nat)) oneOrder
  = (oneOrder, [AccessFindByIdPopulate 7], inr replyNotFound).
Proof.
  apply (getOrderById_refusals byKey reachable (Some 7%nat) oneOrder).
  intros i [= <-]. split; vm_compute; reflexivity.
Defined.

(** Scenario 1, then the order read back: the line shows the two left. *)
Lemma getOrderById_after_createOrder_witness :
  let body := order [("A", 3)] in
  let db' := finalDb (run noValidators (createOrder body) (inventory [("A", 5)])) in
  exists populated,
    sentH (runH byKey reachable (getOrderById (Some 0%nat)) db')
    = Some (Reply.mk 200 true "Order retrieved successfully" (Some (0%nat, populated)) None)
    /\ PopulatedOrder.deliveryAddress populated = address1
    /\ PopulatedItem.quantity <$> PopulatedOrder.products populated
       = LineItem.quantity <$> [LineItem.mk "A" 3]
    /\ PopulatedItem.productId <$> PopulatedOrder.products populated
       = (fun product =>
            pair (LineItem.productId product)
              <$> Db.Product db' !! LineItem.productId product) <$> [LineItem.mk "A" 3].
Proof.
  apply (getOrderById_after_createOrder byKey reachable noValidators (order [("A", 3)])
           address1 [LineItem.mk "A" 3] (inventory [("A", 5)])
           (0%nat, Order.mk address1 [LineItem.mk "A" 3])).
  - reflexivity.
  - vm_compute. reflexivity.
  - reflexivity.
Defined.

(** Order 0 deleted: the five of A are still five. *)
Lemma deleteOrder_removes_only_the_order_witness :
  let r := runH byKey reachable (deleteOrder (Some 0%nat)) oneOrder in
  (Reply.status <$> sentH r) = Some 200%nat
  /\ Db.Order (finalDbH r) !! 0%nat = None
  /\ (forall other, other <> 0%nat ->
        Db.Order (finalDbH r) !! other = Db.Order oneOrder !! other)
  /\ Db.Product (finalDbH r) = Db.Product oneOrder
  /\ Db.nextId (finalDbH r) = Db.nextId oneOrder.
Proof.
  apply (deleteOrder_removes_only_the_order byKey reachable 0%nat oneOrder
           (Order.mk address1 [LineItem.mk "A" 3])).
  - vm_compute. reflexivity.
  - reflexivity.
  - reflexivity.
Defined.

Lemma getOrderById_after_deleteOrder_witness :
  sentH (runH byKey reachable (getOrderById (Some 0%nat))
           (finalDbH (runH byKey reachable (deleteOrder (Some 0%nat)) oneOrder)))
  = Some replyNotFound.
Proof.
  apply (getOrderById_after_deleteOrder byKey reachable 0%nat oneOrder
           (Order.mk address1 [LineItem.mk "A" 3])).
  - vm_compute. reflexivity.
  - reflexivity.
  - reflexivity.
  - reflexivity.
Defined.

(** The removal of order 0 rejected by the store. *)
Lemma deleteOrder_rejected_removal_witness :
  runH byKey removalDown (deleteOrder (Some 0%nat)) oneOrder
  = (oneOrder, [AccessFindById 0; AccessFindByIdAndRemove 0],
     inr (replyFailed "Failed to delete the order" "store unreachable")).
Proof.
  apply (deleteOrder_rejected_removal byKey removalDown 0%nat oneOrder
           (Order.mk address1 [LineItem.mk "A" 3]) "store unreachable").
  - vm_compute. reflexivity.
  - reflexivity.
  - reflexivity.
Defined.

Lemma getAllOrders_witness :
  exists sorted,
    runH byKey reachable getAllOrders oneOrder
    = (oneOrder, [AccessFind],
       inr (Reply.mk 200 true "Orders retrieved successfully"
              (Some ((fun o => (o.1, populate oneOrder o.2)) <$> sorted)) None))
    /\ (forall id o, (id, o) ∈ sorted <-> Db.Order oneOrder !! id = Some o)
    /\ NoDup sorted.*1
    /\ StronglySorted (newerFirst byKey) sorted.
Proof.
  apply (getAllOrders_lists_every_order_newest_first byKey reachable oneOrder).
  reflexivity.
Defined.

